(** * Wallet Saver: the allocation / ledger engine

    A shallow embedding of the engine of
    [src/wallet_saver_starter_react_single_file.jsx]:
    [distributeIncome], [addTransaction], [createGoal], [exportData] and
    [importData], together with the part of the JavaScript value model
    those functions rely on ([Number(x) || 0], [Math.round], [===], [??]).

    Numbers.  A JavaScript number is modelled as an exact rational
    extended with [NaN], [+Infinity] and [-Infinity].  Arithmetic on the
    finite part is exact: the rounding of IEEE-754 doubles, overflow and
    the sign of zero are outside the model.

    State.  A handler reads the state of the render it was created in
    and its updates are applied in the order they are queued; each
    function below takes that state and returns the state after its
    updates.  Identifiers drawn by [uid] and the clock are inputs. *)

From Stdlib Require Import ZArith QArith Qcanon Qround Qabs Qcabs Qpower.
From Stdlib Require Import Lqa Lia List String Ascii Bool.
Import ListNotations.

(* ================================================================== *)
(** * JavaScript numbers and primitive values *)
(* ================================================================== *)

Module JS.
Local Open Scope Qc_scope.

Inductive number : Type :=
| NaN
| PosInf
| NegInf
| Fin (q : Qc).

Definition of_Z (z : Z) : number := Fin (Q2Qc (inject_Z z)).
Definition of_nat (n : nat) : number := of_Z (Z.of_nat n).
Definition zero : number := Fin 0.
Definition one : number := Fin 1.

Definition is_finite (x : number) : bool :=
  match x with Fin _ => true | _ => false end.

(** ** Arithmetic: [+], unary [-], binary [-], [*], [/] *)

Definition add (x y : number) : number :=
  match x, y with
  | NaN, _ | _, NaN => NaN
  | PosInf, NegInf | NegInf, PosInf => NaN
  | PosInf, _ | _, PosInf => PosInf
  | NegInf, _ | _, NegInf => NegInf
  | Fin a, Fin b => Fin (a + b)
  end.

Definition neg (x : number) : number :=
  match x with
  | NaN => NaN
  | PosInf => NegInf
  | NegInf => PosInf
  | Fin a => Fin (- a)
  end.

Definition sub (x y : number) : number := add x (neg y).

(** The infinity with the sign of [c] ([NaN] when [c] is zero). *)
Definition signed_inf (c : comparison) : number :=
  match c with Eq => NaN | Gt => PosInf | Lt => NegInf end.

Definition mul (x y : number) : number :=
  match x, y with
  | NaN, _ | _, NaN => NaN
  | Fin a, Fin b => Fin (a * b)
  | Fin a, PosInf | PosInf, Fin a => signed_inf (a ?= 0)
  | Fin a, NegInf | NegInf, Fin a => signed_inf (0 ?= a)
  | PosInf, PosInf | NegInf, NegInf => PosInf
  | PosInf, NegInf | NegInf, PosInf => NegInf
  end.

(** A zero divisor is taken as [+0]. *)
Definition div (x y : number) : number :=
  match x, y with
  | NaN, _ | _, NaN => NaN
  | Fin a, Fin b =>
      if Qc_eq_bool b 0 then signed_inf (a ?= 0) else Fin (a / b)
  | Fin _, (PosInf | NegInf) => Fin 0
  | PosInf, Fin b => match b ?= 0 with Lt => NegInf | _ => PosInf end
  | NegInf, Fin b => match b ?= 0 with Lt => PosInf | _ => NegInf end
  | (PosInf | NegInf), (PosInf | NegInf) => NaN
  end.

(** ** Comparison: [None] when an operand is [NaN] *)

Definition compare (x y : number) : option comparison :=
  match x, y with
  | NaN, _ | _, NaN => None
  | PosInf, PosInf | NegInf, NegInf => Some Eq
  | PosInf, _ | _, NegInf => Some Gt
  | NegInf, _ | _, PosInf => Some Lt
  | Fin a, Fin b => Some (a ?= b)
  end.

(** [x < y], [x > y], [x <= y], [x >= y], [x === y] on numbers. *)
Definition ltb (x y : number) : bool :=
  match compare x y with Some Lt => true | _ => false end.
Definition gtb (x y : number) : bool :=
  match compare x y with Some Gt => true | _ => false end.
Definition leb (x y : number) : bool :=
  match compare x y with Some (Lt | Eq) => true | _ => false end.
Definition geb (x y : number) : bool :=
  match compare x y with Some (Gt | Eq) => true | _ => false end.
Definition eqb (x y : number) : bool :=
  match compare x y with Some Eq => true | _ => false end.

(** ** The [Math] functions the engine calls *)

Definition Math_abs (x : number) : number :=
  match x with
  | NaN => NaN
  | PosInf | NegInf => PosInf
  | Fin a => Fin (Qcabs a)
  end.

Definition Math_max (x y : number) : number :=
  match compare x y with
  | None => NaN
  | Some Lt => y
  | Some _ => x
  end.

Definition Math_min (x y : number) : number :=
  match compare x y with
  | None => NaN
  | Some Gt => y
  | Some _ => x
  end.

Definition Math_floor (x : number) : number :=
  match x with
  | Fin a => of_Z (Qfloor (this a))
  | _ => x
  end.

(** [Math.round]: nearest integer, a tie going towards [+Infinity]. *)
Definition Math_round (x : number) : number :=
  match x with
  | Fin a => of_Z (Qfloor (this a + (1 # 2)))
  | _ => x
  end.

(** ** Truthiness and [||] on numbers *)

Definition truthy_number (x : number) : bool :=
  match x with
  | NaN => false
  | Fin a => negb (Qc_eq_bool a 0)
  | _ => true
  end.

(** [x || d] for a number [x]. *)
Definition or_else (x d : number) : number :=
  if truthy_number x then x else d.

(** ** Primitive values *)

Inductive prim : Type :=
| PUndefined
| PNull
| PBool (b : bool)
| PNum (n : number)
| PStr (s : string).

Definition truthy (v : prim) : bool :=
  match v with
  | PUndefined | PNull => false
  | PBool b => b
  | PNum n => truthy_number n
  | PStr s => negb (String.eqb s "")
  end.

(** [v === w] on primitives. *)
Definition strict_eq (v w : prim) : bool :=
  match v, w with
  | PUndefined, PUndefined | PNull, PNull => true
  | PBool a, PBool b => Bool.eqb a b
  | PNum a, PNum b => eqb a b
  | PStr a, PStr b => String.eqb a b
  | _, _ => false
  end.
End JS.

(* ================================================================== *)
(** * [Number(v)]: conversion of a primitive to a number *)
(* ================================================================== *)

Module ToNumber.
Import JS.
Local Open Scope char_scope.

(** White space that [Number] strips: TAB, LF, VT, FF, CR and SP. *)
Definition is_space (c : ascii) : bool :=
  let n := nat_of_ascii c in
  ((9 <=? n) && (n <=? 13) || (n =? 32))%nat.

Fixpoint drop_space (l : list ascii) : list ascii :=
  match l with
  | c :: r => if is_space c then drop_space r else l
  | [] => []
  end.

Definition trim (l : list ascii) : list ascii :=
  rev (drop_space (rev (drop_space l))).

(** Value of [c] as a digit in the given radix. *)
Definition digit_val (radix : Z) (c : ascii) : option Z :=
  let n := Z.of_nat (nat_of_ascii c) in
  let v :=
    if ((48 <=? n) && (n <=? 57))%Z then Some (n - 48)%Z
    else if ((97 <=? n) && (n <=? 102))%Z then Some (n - 87)%Z
    else if ((65 <=? n) && (n <=? 70))%Z then Some (n - 55)%Z
    else None in
  match v with
  | Some d => if (d <? radix)%Z then Some d else None
  | None => None
  end.

(** Reads the longest prefix of digits: its value continued from [acc],
    how many digits were read, and the rest of the input. *)
Fixpoint digits (radix : Z) (l : list ascii) (acc : Z) (n : nat)
  : Z * nat * list ascii :=
  match l with
  | c :: r =>
      match digit_val radix c with
      | Some d => digits radix r (acc * radix + d)%Z (S n)
      | None => (acc, n, l)
      end
  | [] => (acc, n, [])
  end.

(** [0x..], [0o..], [0b..]: at least one digit and nothing after. *)
Definition radix_literal (radix : Z) (l : list ascii) : number :=
  match digits radix l 0%Z 0%nat with
  | (v, S _, []) => of_Z v
  | _ => NaN
  end.

(** [e] or [E], an optional sign, at least one digit, nothing after. *)
Definition exponent_part (l : list ascii) : option Z :=
  match l with
  | [] => Some 0%Z
  | c :: r =>
      if (c =? "e") || (c =? "E") then
        let '(sgn, r') :=
          match r with
          | s :: r' =>
              if s =? "+" then (1%Z, r')
              else if s =? "-" then ((-1)%Z, r')
              else (1%Z, r)
          | [] => (1%Z, r)
          end in
        match digits 10 r' 0%Z 0%nat with
        | (v, S _, []) => Some (sgn * v)%Z
        | _ => None
        end
      else None
  end.

(** [digits . digits? exponent?], [. digits exponent?],
    [digits exponent?]. *)
Definition decimal_literal (l : list ascii) : number :=
  let '(i, ni, r1) := digits 10 l 0%Z 0%nat in
  let '(m, nf, r2) :=
    match r1 with
    | c :: r1' =>
        if c =? "." then digits 10 r1' i 0%nat else (i, 0%nat, r1)
    | [] => (i, 0%nat, r1)
    end in
  match (ni + nf)%nat, exponent_part r2 with
  | S _, Some e =>
      Fin (Q2Qc (inject_Z m * Qpower (inject_Z 10) (e - Z.of_nat nf)))
  | _, _ => NaN
  end.

Definition unsigned_literal (l : list ascii) : number :=
  if String.eqb (string_of_list_ascii l) "Infinity" then PosInf
  else decimal_literal l.

Definition starts_radix (l : list ascii) (lo up : ascii) : bool :=
  match l with
  | z :: x :: _ => (z =? "0") && ((x =? lo) || (x =? up))
  | _ => false
  end.

(** The numeric value of a string, [NaN] when it is not a numeric
    literal; the empty and the all-blank string give [0]. *)
Definition StringToNumber (s : string) : number :=
  let l := trim (list_ascii_of_string s) in
  match l with
  | [] => zero
  | c :: r =>
      if starts_radix l "x" "X" then radix_literal 16 (skipn 2 l)
      else if starts_radix l "o" "O" then radix_literal 8 (skipn 2 l)
      else if starts_radix l "b" "B" then radix_literal 2 (skipn 2 l)
      else if c =? "+" then unsigned_literal r
      else if c =? "-" then neg (unsigned_literal r)
      else unsigned_literal l
  end.

(** [Number(v)]. *)
Definition Number (v : prim) : number :=
  match v with
  | PUndefined => NaN
  | PNull => zero
  | PBool true => one
  | PBool false => zero
  | PNum n => n
  | PStr s => StringToNumber s
  end.

(** [Number(v) || 0], the coercion the engine applies to percents,
    amounts and targets: a value that is not numeric becomes [0]. *)
Definition Number_or_0 (v : prim) : number :=
  or_else (Number v) zero.
End ToNumber.

(* ================================================================== *)
(** * Data model *)
(* ================================================================== *)

(** The fields that the engine passes through [Number(..)] hold any
    primitive; the fields it computes itself hold numbers. *)

Module Category.
Record t : Type := mk {
  id : string;
  name : JS.prim;
  percent : JS.prim;
  balance : JS.number
}.

(** [{ ...c, balance: b }] *)
Definition with_balance (c : t) (b : JS.number) : t :=
  {| id := id c; name := name c; percent := percent c; balance := b |}.
End Category.

Module Transaction.
Record t : Type := mk {
  id : string;
  title : JS.prim;
  amount : JS.number;
  categoryId : JS.prim;
  date : string
}.
End Transaction.

Module Goal.
Record t : Type := mk {
  id : string;
  name : JS.prim;
  targetAmount : JS.number;
  saved : JS.number
}.

(** [{ ...g, saved: s }] *)
Definition with_saved (g : t) (s : JS.number) : t :=
  {| id := id g; name := name g; targetAmount := targetAmount g;
     saved := s |}.
End Goal.

(** The four pieces of component state. *)
Record State : Type := mkState {
  income : JS.prim;
  categories : list Category.t;
  transactions : list Transaction.t;
  goals : list Goal.t
}.

Definition setCategories (st : State) (cs : list Category.t) : State :=
  {| income := income st; categories := cs;
     transactions := transactions st; goals := goals st |}.

Definition setTransactions (st : State) (ts : list Transaction.t) : State :=
  {| income := income st; categories := categories st;
     transactions := ts; goals := goals st |}.

Definition setGoals (st : State) (gs : list Goal.t) : State :=
  {| income := income st; categories := categories st;
     transactions := transactions st; goals := gs |}.

(** Argument objects of [addTransaction] and [createGoal]. *)
Module TxArgs.
Record t : Type := mk {
  title : JS.prim;
  amount : JS.prim;
  categoryId : JS.prim;
  type : JS.prim
}.
End TxArgs.

Module GoalArgs.
Record t : Type := mk {
  name : JS.prim;
  targetAmount : JS.prim;
  fromCategoryId : JS.prim
}.
End GoalArgs.

(* ================================================================== *)
(** * The engine *)
(* ================================================================== *)

Module Engine.
Import JS ToNumber.

(** [categories.reduce((s, c) => s + (Number(c.percent) || 0), 0)] *)
Definition totalPercent (cs : list Category.t) : number :=
  fold_left (fun s c => add s (Number_or_0 (Category.percent c))) cs zero.

(** The balance [distributeIncome] allocates to [c] when the total
    percent [tp] is not zero. *)
Definition allocated (tp : number) (inc : prim) (c : Category.t) : number :=
  let p := Number_or_0 (Category.percent c) in
  Math_round (mul (div p (Math_max tp one)) (Number inc)).

(** The equal share [distributeIncome] uses when the total is zero. *)
Definition equal (inc : prim) (cs : list Category.t) : number :=
  Math_floor (div (Number inc) (of_nat (List.length cs))).

Definition distributeIncome (st : State) : State :=
  let cs := categories st in
  let tp := totalPercent cs in
  match cs with
  | [] => st
  | _ :: _ =>
      let newCats :=
        if eqb tp zero then
          map (fun c => Category.with_balance c (equal (income st) cs)) cs
        else
          map (fun c =>
                 Category.with_balance c (allocated tp (income st) c)) cs in
      setCategories st newCats
  end.

(** The [type = "expense"] default of the destructured parameter:
    it replaces [undefined] only. *)
Definition type_or_default (ty : prim) : prim :=
  match ty with
  | PUndefined => PStr "expense"
  | _ => ty
  end.

(** The signed amount of a transaction. *)
Definition signed (a : TxArgs.t) : number :=
  let amt := Number_or_0 (TxArgs.amount a) in
  if strict_eq (type_or_default (TxArgs.type a)) (PStr "expense")
  then neg (Math_abs amt)
  else Math_abs amt.

(** [uid("tx")] and [new Date().toISOString()] are inputs: [txid] is
    the identifier drawn and [now] the clock reading. *)
Definition addTransaction (txid now : string) (a : TxArgs.t) (st : State)
  : State :=
  let tx :=
    {| Transaction.id := txid;
       Transaction.title := TxArgs.title a;
       Transaction.amount := signed a;
       Transaction.categoryId := TxArgs.categoryId a;
       Transaction.date := now |} in
  let st1 := setTransactions st (tx :: transactions st) in
  if truthy (TxArgs.categoryId a) then
    setCategories st1
      (map (fun c =>
              if strict_eq (PStr (Category.id c)) (TxArgs.categoryId a)
              then Category.with_balance c
                     (Math_max zero (add (Category.balance c) (signed a)))
              else c)
           (categories st1))
  else st1.

(** The goal [createGoal] builds before any transfer. *)
Definition new_goal (gid : string) (a : GoalArgs.t) : Goal.t :=
  {| Goal.id := gid;
     Goal.name := GoalArgs.name a;
     Goal.targetAmount := Number_or_0 (GoalArgs.targetAmount a);
     Goal.saved := zero |}.

(** [uid("g")] is an input: [gid] is the identifier drawn.  The
    category is looked up in the state the handler was created in,
    the updates apply to the state as it is after [setGoals]. *)
Definition createGoal (gid : string) (a : GoalArgs.t) (st : State) : State :=
  let g := new_goal gid a in
  let from := GoalArgs.fromCategoryId a in
  let st1 := setGoals st (goals st ++ [g]) in
  if truthy from then
    match find (fun cc => strict_eq (PStr (Category.id cc)) from)
               (categories st) with
    | Some c =>
        if gtb (Category.balance c) zero then
          let transfer :=
            Math_min (Category.balance c) (Goal.targetAmount g) in
          let st2 :=
            setCategories st1
              (map (fun cc =>
                      if strict_eq (PStr (Category.id cc)) from
                      then Category.with_balance cc
                             (sub (Category.balance cc) transfer)
                      else cc)
                   (categories st1)) in
          setGoals st2
            (map (fun gg =>
                    if String.eqb (Goal.id gg) (Goal.id g)
                    then Goal.with_saved gg (add (Goal.saved gg) transfer)
                    else gg)
                 (goals st2))
        else st1
    | None => st1
    end
  else st1.
End Engine.

(* ================================================================== *)
(** * The scenario of the specification, run on the engine *)
(* ================================================================== *)

Module Scenario.
Import JS ToNumber Engine.
Local Open Scope string_scope.

Definition cat (i : string) (p : Z) : Category.t :=
  {| Category.id := i; Category.name := PStr i;
     Category.percent := PNum (of_Z p); Category.balance := zero |}.

Definition start : State :=
  {| income := PNum (of_Z 1000);
     categories := [cat "c0" 50; cat "c1" 30; cat "c2" 20];
     transactions := [];
     goals := [] |}.

Definition balances (st : State) : list number :=
  map Category.balance (categories st).

Definition after_distribute : State := distributeIncome start.

Definition after_expense : State :=
  addTransaction "tx1" "2024-01-01T00:00:00.000Z"
    {| TxArgs.title := PStr "Rent"; TxArgs.amount := PStr "600";
       TxArgs.categoryId := PStr "c0"; TxArgs.type := PStr "expense" |}
    after_distribute.

Definition after_goal : State :=
  createGoal "g1"
    {| GoalArgs.name := PStr "Trip";
       GoalArgs.targetAmount := PNum (of_Z 1000);
       GoalArgs.fromCategoryId := PStr "c1" |}
    after_expense.
End Scenario.

(* ================================================================== *)
(** * Snapshot: export and import *)
(* ================================================================== *)

(** [importData] stores whatever the document holds, of any shape, so
    this part sees the component state as four JavaScript values. *)

Module Snapshot.
Import JS.
Local Open Scope string_scope.

(** Primitives, arrays, and plain objects with their own properties
    in insertion order. *)
#[local] Unset Elimination Schemes.
Inductive value : Type :=
| VPrim (p : prim)
| VArr (items : list value)
| VObj (props : list (string * value)).
#[local] Set Elimination Schemes.

Definition undefined : value := VPrim PUndefined.
Definition null : value := VPrim PNull.

Inductive error : Type :=
| SyntaxError
| TypeError.

Inductive result (A : Type) : Type :=
| Ok (a : A)
| Throw (e : error).
Arguments Ok {A} a.
Arguments Throw {A} e.

Fixpoint lookup (k : string) (props : list (string * value)) : value :=
  match props with
  | [] => undefined
  | (k', v) :: r => if String.eqb k k' then v else lookup k r
  end.

(** [v.k] for a key [k] that no array, string, number or boolean
    carries (the four keys [importData] reads): reading it from
    [null] or [undefined] throws, an object gives its own property,
    anything else gives [undefined]. *)
Definition get (v : value) (k : string) : result value :=
  match v with
  | VPrim PNull | VPrim PUndefined => Throw TypeError
  | VObj props => Ok (lookup k props)
  | _ => Ok undefined
  end.

(** [a ?? b] *)
Definition nullish (a b : value) : value :=
  match a with
  | VPrim PNull | VPrim PUndefined => b
  | _ => a
  end.

(** The component state as [importData] and [exportData] see it. *)
Module Raw.
Record state : Type := mk {
  income : value;
  categories : value;
  transactions : value;
  goals : value
}.

Definition setIncome (st : state) (v : value) : state :=
  {| income := v; categories := categories st;
     transactions := transactions st; goals := goals st |}.
Definition setCategories (st : state) (v : value) : state :=
  {| income := income st; categories := v;
     transactions := transactions st; goals := goals st |}.
Definition setTransactions (st : state) (v : value) : state :=
  {| income := income st; categories := categories st;
     transactions := v; goals := goals st |}.
Definition setGoals (st : state) (v : value) : state :=
  {| income := income st; categories := categories st;
     transactions := transactions st; goals := v |}.
End Raw.

(** ** The engine's records as JavaScript objects *)

Definition num (n : number) : value := VPrim (PNum n).
Definition str (s : string) : value := VPrim (PStr s).

Definition of_category (c : Category.t) : value :=
  VObj [("id", str (Category.id c));
        ("name", VPrim (Category.name c));
        ("percent", VPrim (Category.percent c));
        ("balance", num (Category.balance c))].

Definition of_transaction (t : Transaction.t) : value :=
  VObj [("id", str (Transaction.id t));
        ("title", VPrim (Transaction.title t));
        ("amount", num (Transaction.amount t));
        ("categoryId", VPrim (Transaction.categoryId t));
        ("date", str (Transaction.date t))].

Definition of_goal (g : Goal.t) : value :=
  VObj [("id", str (Goal.id g));
        ("name", VPrim (Goal.name g));
        ("targetAmount", num (Goal.targetAmount g));
        ("saved", num (Goal.saved g))].

Definition of_state (st : State) : Raw.state :=
  {| Raw.income := VPrim (income st);
     Raw.categories := VArr (map of_category (categories st));
     Raw.transactions := VArr (map of_transaction (transactions st));
     Raw.goals := VArr (map of_goal (goals st)) |}.

(** ** The host's JSON codec *)

(** [JSON.stringify] and [JSON.parse] belong to the host; the
    component only calls them.  [text] is what a file holds. *)
Class JSON : Type := {
  text : Type;
  JSON_stringify : value -> text;
  JSON_parse : text -> result value
}.

(** Values that [JSON.stringify] writes and [JSON.parse] reads back
    as they are: no [undefined], no [NaN] or infinity, no repeated
    key, and no key made of digits (an object lists such keys first,
    whatever the order they were set in). *)
Definition prim_safe (p : prim) : bool :=
  match p with
  | PUndefined => false
  | PNum n => is_finite n
  | _ => true
  end.

Fixpoint all_digits (s : string) : bool :=
  match s with
  | EmptyString => true
  | String c r =>
      let n := nat_of_ascii c in
      ((48 <=? n) && (n <=? 57))%nat && all_digits r
  end.

Definition index_like (k : string) : bool :=
  negb (String.eqb k "") && all_digits k.

Fixpoint fresh_key (k : string) (props : list (string * value)) : bool :=
  match props with
  | [] => true
  | (k', _) :: r => negb (String.eqb k k') && fresh_key k r
  end.

Fixpoint json_safe (v : value) : bool :=
  match v with
  | VPrim p => prim_safe p
  | VArr items => forallb json_safe items
  | VObj props =>
      (fix go (ps : list (string * value)) : bool :=
         match ps with
         | [] => true
         | (k, x) :: r =>
             json_safe x && negb (index_like k) && fresh_key k r && go r
         end) props
  end.

(** The law of the codec: parsing what was written gives the value
    back, for the values written without loss. *)
Class JSONLaws (J : JSON) : Prop :=
  parse_stringify :
    forall v, json_safe v = true -> JSON_parse (JSON_stringify v) = Ok v.

(** ** [exportData] and [importData] *)

Section Component.
Context {J : JSON}.

(** [{ income, categories, transactions, goals }] *)
Definition payload (st : Raw.state) : value :=
  VObj [("income", Raw.income st);
        ("categories", Raw.categories st);
        ("transactions", Raw.transactions st);
        ("goals", Raw.goals st)].

(** The text [exportData] offers for download. *)
Definition exportData (st : Raw.state) : text :=
  JSON_stringify (payload st).

(** Statements of the handler: they update the state and may
    throw.  A throw keeps the updates made before it. *)
Definition M (A : Type) : Type := Raw.state -> Raw.state * result A.

Definition ret {A} (a : A) : M A := fun s => (s, Ok a).

Definition bind {A B} (m : M A) (f : A -> M B) : M B :=
  fun s =>
    match m s with
    | (s', Ok a) => f a s'
    | (s', Throw e) => (s', Throw e)
    end.

Definition lift {A} (r : result A) : M A := fun s => (s, r).

Definition update (f : Raw.state -> Raw.state) : M unit :=
  fun s => (f s, Ok tt).

Notation "x <- m ;; k" := (bind m (fun x => k))
  (at level 61, m at next level, right associativity).
Notation "m ;;; k" := (bind m (fun _ => k))
  (at level 61, right associativity).

(** The body of the [try] block.  [cur] is the state the handler
    closed over: the fallbacks read its fields. *)
Definition import_body (cur : Raw.state) (doc : text) : M unit :=
  parsed <- lift (JSON_parse doc) ;;
  i <- lift (get parsed "income") ;;
  update (fun s => Raw.setIncome s (nullish i (Raw.income cur))) ;;;
  c <- lift (get parsed "categories") ;;
  update (fun s => Raw.setCategories s (nullish c (Raw.categories cur))) ;;;
  t <- lift (get parsed "transactions") ;;
  update (fun s =>
            Raw.setTransactions s (nullish t (Raw.transactions cur))) ;;;
  g <- lift (get parsed "goals") ;;
  update (fun s => Raw.setGoals s (nullish g (Raw.goals cur))).

(** [reader.onload] on the text of the chosen file: the state after
    it and the message it alerts, if any. *)
Definition importData (cur : Raw.state) (doc : text)
  : Raw.state * option string :=
  match import_body cur doc cur with
  | (s, Ok _) => (s, None)
  | (s, Throw _) => (s, Some "Invalid file")
  end.
End Component.

(** ** A codec on document trees *)

(** What [JSON.stringify] writes for [v], as the value the text
    denotes: [undefined] properties are left out, [undefined] items
    and numbers that are not finite become [null]. *)
Fixpoint written (v : value) : value :=
  match v with
  | VPrim PUndefined => null
  | VPrim (PNum n) => if is_finite n then v else null
  | VPrim _ => v
  | VArr items => VArr (map written items)
  | VObj props =>
      VObj ((fix go (ps : list (string * value)) : list (string * value) :=
               match ps with
               | [] => []
               | (k, VPrim PUndefined) :: r => go r
               | (k, x) :: r => (k, written x) :: go r
               end) props)
  end.

(** A file holds either text that is not JSON or a document. *)
Inductive tree_text : Type :=
| Malformed
| Document (v : value).

Definition TreeJSON : JSON :=
  {| text := tree_text;
     JSON_stringify := fun v => Document (written v);
     JSON_parse := fun t =>
       match t with
       | Malformed => Throw SyntaxError
       | Document v => Ok v
       end |}.

(** ** States that a snapshot can hold *)

(** The numbers are finite and no field is [undefined]; the income
    is not [null]. *)
Definition valid_category (c : Category.t) : bool :=
  prim_safe (Category.name c) && prim_safe (Category.percent c)
  && is_finite (Category.balance c).

Definition valid_transaction (t : Transaction.t) : bool :=
  prim_safe (Transaction.title t) && is_finite (Transaction.amount t)
  && prim_safe (Transaction.categoryId t).

Definition valid_goal (g : Goal.t) : bool :=
  prim_safe (Goal.name g) && is_finite (Goal.targetAmount g)
  && is_finite (Goal.saved g).

Definition valid_income (v : prim) : bool :=
  match v with
  | PNull => false
  | _ => prim_safe v
  end.

Definition valid_state (st : State) : bool :=
  valid_income (income st)
  && forallb valid_category (categories st)
  && forallb valid_transaction (transactions st)
  && forallb valid_goal (goals st).
End Snapshot.

Import JS ToNumber Engine.

(* ================================================================== *)
(** * What the specification states about a distribution *)
(* ================================================================== *)

Module Distribution.

(** What the specification writes for the proportional share,
    [round(percent / T * I)]. *)
Definition share (T : number) (inc : prim) (c : Category.t) : number :=
  Math_round (mul (div (Number_or_0 (Category.percent c)) T) (Number inc)).

(** What it writes for the equal share, [floor(I / count)]. *)
Definition equal_share (inc : prim) (count : nat) : number :=
  Math_floor (div (Number inc) (of_nat count)).

(** The sum of the balances, added left to right. *)
Definition sum_balances (cs : list Category.t) : number :=
  fold_left (fun s c => add s (Category.balance c)) cs zero.
End Distribution.

(* ================================================================== *)
(** * Sums of finite numbers *)
(* ================================================================== *)

Module Rounding.
Local Open Scope Qc_scope.

Definition qsum (qs : list Qc) : Qc := fold_right Qcplus 0 qs.
End Rounding.

(* ================================================================== *)
(** * What a goal transfer leaves behind *)
(* ================================================================== *)

Module GoalTransfer.

(** The categories after a transfer of [m] out of [c]. *)
Definition withdraw (c : Category.t) (m : number) (cs : list Category.t)
  : list Category.t :=
  map (fun cc =>
         if String.eqb (Category.id cc) (Category.id c)
         then Category.with_balance c (sub (Category.balance c) m)
         else cc) cs.

(** The goals after [m] was credited to the goals named [gid]. *)
Definition credit (gid : string) (m : number) (gs : list Goal.t)
  : list Goal.t :=
  map (fun gg =>
         if String.eqb (Goal.id gg) gid
         then Goal.with_saved gg (add (Goal.saved gg) m)
         else gg) gs.
End GoalTransfer.

(* ================================================================== *)
(** * The operations and the invariant on balances *)
(* ================================================================== *)

Module Invariant.

(** The operations of the engine. *)
Inductive operation : Type :=
| Distribute
| AddTransaction (txid now : string) (a : TxArgs.t)
| CreateGoal (gid : string) (a : GoalArgs.t).

Definition run (op : operation) (st : State) : State :=
  match op with
  | Distribute => distributeIncome st
  | AddTransaction txid now a => addTransaction txid now a st
  | CreateGoal gid a => createGoal gid a st
  end.

(** Every balance satisfies [balance >= 0]. *)
Definition nonneg_balances (st : State) : Prop :=
  Forall (fun c => geb (Category.balance c) zero = true) (categories st).

Definition finite_nonneg (x : number) : bool :=
  is_finite x && geb x zero.

(** The inputs on which an operation keeps the balances non-negative:
    a distribution needs a finite income [>= 0] and finite percents
    [>= 0]; a transaction needs a finite amount; a goal needs a
    finite target and categories with unique ids. *)
Definition admissible (op : operation) (st : State) : Prop :=
  match op with
  | Distribute =>
      finite_nonneg (Number (income st)) = true
      /\ Forall (fun c =>
                   finite_nonneg (Number_or_0 (Category.percent c)) = true)
                (categories st)
  | AddTransaction _ _ a =>
      is_finite (Number_or_0 (TxArgs.amount a)) = true
  | CreateGoal _ a =>
      is_finite (Number_or_0 (GoalArgs.targetAmount a)) = true
      /\ NoDup (map Category.id (categories st))
  end.
End Invariant.

(* ================================================================== *)
(** * Sample states and arguments *)
(* ================================================================== *)

Module Samples.
Local Open Scope string_scope.

(** A state whose single category weighs one half. *)
Definition half_state : State :=
  {| income := PNum (of_Z 100);
     categories :=
       [ {| Category.id := "c0"; Category.name := PStr "Half";
            Category.percent := PNum (Fin (Q2Qc (1 # 2)));
            Category.balance := zero |} ];
     transactions := [];
     goals := [] |}.

(** A state whose two categories have no percent allocated. *)
Definition unallocated_state : State :=
  {| income := PNum (of_Z 101);
     categories :=
       [ {| Category.id := "a"; Category.name := PStr "A";
            Category.percent := PNum zero; Category.balance := zero |};
         {| Category.id := "b"; Category.name := PStr "B";
            Category.percent := PStr ""; Category.balance := of_Z 7 |} ];
     transactions := [];
     goals := [] |}.

Definition rent : TxArgs.t :=
  {| TxArgs.title := PStr "Rent"; TxArgs.amount := PStr "600";
     TxArgs.categoryId := PStr "c0"; TxArgs.type := PStr "expense" |}.

Definition salary : TxArgs.t :=
  {| TxArgs.title := PStr "Salary"; TxArgs.amount := PNum (of_Z (-250));
     TxArgs.categoryId := PStr "c1"; TxArgs.type := PStr "income" |}.

(** A state whose category [c1] is empty. *)
Definition empty_category_state : State :=
  {| income := PNum (of_Z 1000);
     categories :=
       [ {| Category.id := "c1"; Category.name := PStr "Savings";
            Category.percent := PNum (of_Z 100);
            Category.balance := zero |} ];
     transactions := [];
     goals := [] |}.

Definition negative_target : GoalArgs.t :=
  {| GoalArgs.name := PStr "Trip";
     GoalArgs.targetAmount := PNum (of_Z (-5));
     GoalArgs.fromCategoryId := PStr "c1" |}.

(** A state whose category [c1] holds 300. *)
Definition funded_state : State :=
  {| income := PNum (of_Z 1000);
     categories :=
       [ {| Category.id := "c0"; Category.name := PStr "Essentials";
            Category.percent := PNum (of_Z 50);
            Category.balance := zero |};
         {| Category.id := "c1"; Category.name := PStr "Savings";
            Category.percent := PNum (of_Z 30);
            Category.balance := of_Z 300 |} ];
     transactions := [];
     goals := [] |}.

Definition savings : Category.t :=
  {| Category.id := "c1"; Category.name := PStr "Savings";
     Category.percent := PNum (of_Z 30); Category.balance := of_Z 300 |}.

Definition trip : GoalArgs.t :=
  {| GoalArgs.name := PStr "Trip";
     GoalArgs.targetAmount := PNum (of_Z 1000);
     GoalArgs.fromCategoryId := PStr "c1" |}.

Definition deposit_target : GoalArgs.t :=
  {| GoalArgs.name := PStr "Trip";
     GoalArgs.targetAmount := PStr "-40";
     GoalArgs.fromCategoryId := PStr "c1" |}.

(** A state whose income is negative. *)
Definition overdrawn_income_state : State :=
  {| income := PNum (of_Z (-100));
     categories :=
       [ {| Category.id := "c0"; Category.name := PStr "All";
            Category.percent := PNum (of_Z 100);
            Category.balance := zero |} ];
     transactions := [];
     goals := [] |}.
End Samples.

Import Distribution Rounding GoalTransfer Invariant Samples.

(* ================================================================== *)
(** * Category edits: [addCategory], [updateCategory], [removeCategory] *)
(* ================================================================== *)

(** The [patch] object of [updateCategory]: the properties it holds
    replace those of the category, the others are kept. *)
Module Patch.
Record t : Type := mk {
  id : option string;
  name : option prim;
  percent : option prim;
  balance : option number
}.

Definition or_keep {A : Type} (o : option A) (a : A) : A :=
  match o with
  | Some x => x
  | None => a
  end.

(** [{ ...c, ...patch }] *)
Definition apply (c : Category.t) (p : t) : Category.t :=
  {| Category.id := or_keep (id p) (Category.id c);
     Category.name := or_keep (name p) (Category.name c);
     Category.percent := or_keep (percent p) (Category.percent c);
     Category.balance := or_keep (balance p) (Category.balance c) |}.
End Patch.

Module Crud.
Local Open Scope string_scope.

(** The [name = "New"] default of [addCategory]. *)
Definition name_or_default (n : prim) : prim :=
  match n with
  | PUndefined => PStr "New"
  | _ => n
  end.

(** The category [addCategory] builds; [cid] is what [uid("cat")]
    drew. *)
Definition new_category (cid : string) (n : prim) : Category.t :=
  {| Category.id := cid;
     Category.name := name_or_default n;
     Category.percent := PNum zero;
     Category.balance := zero |}.

Definition addCategory (cid : string) (n : prim) (st : State) : State :=
  setCategories st (categories st ++ [new_category cid n]).

Definition updateCategory (id : prim) (patch : Patch.t) (st : State)
  : State :=
  setCategories st
    (map (fun c =>
            if strict_eq (PStr (Category.id c)) id
            then Patch.apply c patch
            else c)
         (categories st)).

Definition removeCategory (id : prim) (st : State) : State :=
  setCategories st
    (filter (fun c => negb (strict_eq (PStr (Category.id c)) id))
            (categories st)).
End Crud.

(* ================================================================== *)
(** * What the page shows of a goal and of a transaction *)
(* ================================================================== *)

Module Display.
Local Open Scope string_scope.

(** The width of the bar of a goal, in percent:
    [Math.min(100, (g.saved / Math.max(1, g.targetAmount)) * 100)]. *)
Definition progress (g : Goal.t) : number :=
  Math_min (of_Z 100)
    (mul (div (Goal.saved g) (Math_max one (Goal.targetAmount g)))
         (of_Z 100)).

(** The category shown beside a transaction:
    [categories.find(c => c.id === tx.categoryId)?.name || "-"]. *)
Definition category_label (cs : list Category.t) (tx : Transaction.t)
  : prim :=
  match find (fun c =>
                strict_eq (PStr (Category.id c)) (Transaction.categoryId tx))
             cs with
  | Some c => if truthy (Category.name c) then Category.name c else PStr "-"
  | None => PStr "-"
  end.
End Display.

(* ================================================================== *)
(** * Persistence: [saveLS] and [loadLS] over [localStorage] *)
(* ================================================================== *)

Module Storage.
Import Snapshot.
Local Open Scope string_scope.

(** [loadLS] tests the stored text for truth: a text is false when it
    is empty. *)
Class TextTest (J : JSON) : Type :=
  text_is_empty : text -> bool.

(** [JSON.stringify] never writes the empty text. *)
Class TextLaws (J : JSON) (T : TextTest J) : Prop :=
  stringify_not_empty :
    forall v, text_is_empty (JSON_stringify v) = false.

Section LocalStorage.
Context {J : JSON} {T : TextTest J}.

(** [localStorage]: the text stored under each key, if any. *)
Definition storage : Type := string -> option text.

Definition empty_storage : storage := fun _ => None.

Definition getItem (s : storage) (key : string) : option text := s key.

Definition setItem (s : storage) (key : string) (v : text) : storage :=
  fun k => if String.eqb k key then Some v else s k.

Definition saveLS (key : string) (data : value) (s : storage) : storage :=
  setItem s key (JSON_stringify data).

(** The [try] block gives the parsed value, or [fallback] when nothing
    true is stored; the [catch] gives [fallback]. *)
Definition loadLS (key : string) (fallback : value) (s : storage) : value :=
  match getItem s key with
  | None => fallback
  | Some v =>
      if text_is_empty v then fallback
      else match JSON_parse v with
           | Ok x => x
           | Throw _ => fallback
           end
  end.

(** The four [saveLS] effects, once each has run on the state. *)
Definition persist (st : Raw.state) (s : storage) : storage :=
  saveLS "ws_goals" (Raw.goals st)
    (saveLS "ws_tx" (Raw.transactions st)
       (saveLS "ws_categories" (Raw.categories st)
          (saveLS "ws_income" (Raw.income st) s))).

(** The four [useState] initialisers, with the fallbacks [defaults]. *)
Definition restore (defaults : Raw.state) (s : storage) : Raw.state :=
  {| Raw.income := loadLS "ws_income" (Raw.income defaults) s;
     Raw.categories := loadLS "ws_categories" (Raw.categories defaults) s;
     Raw.transactions := loadLS "ws_tx" (Raw.transactions defaults) s;
     Raw.goals := loadLS "ws_goals" (Raw.goals defaults) s |}.
End LocalStorage.

(** The fallbacks of the component; [i1], [i2], [i3] are what
    [uid("cat")] drew for the seeded categories. *)
Definition seeded (i : string) (n : string) (p : Z) : Category.t :=
  {| Category.id := i; Category.name := PStr n;
     Category.percent := PNum (of_Z p); Category.balance := zero |}.

Definition defaults (i1 i2 i3 : string) : State :=
  {| income := PNum (of_Z 50000);
     categories :=
       [seeded i1 "Essentials" 50; seeded i2 "Savings" 20;
        seeded i3 "Wants" 30];
     transactions := [];
     goals := [] |}.

(** A codec on stored texts: the empty text, a text that is not JSON,
    or a document. *)
Inductive stored_text : Type :=
| Blank
| Garbled
| Written (v : value).

Definition StoreJSON : JSON :=
  {| text := stored_text;
     JSON_stringify := fun v => Written (written v);
     JSON_parse := fun t =>
       match t with
       | Written v => Ok v
       | _ => Throw SyntaxError
       end |}.

Definition StoreTest : TextTest StoreJSON :=
  fun t => match t with Blank => true | _ => false end.
End Storage.

(* ================================================================== *)
(** * Fields that hold a value *)
(* ================================================================== *)

Module Defined.
Import Snapshot.

(** Neither [null] nor [undefined]. *)
Definition defined (v : value) : bool :=
  match v with
  | VPrim PNull | VPrim PUndefined => false
  | _ => true
  end.

Definition all_defined (st : Raw.state) : bool :=
  defined (Raw.income st) && defined (Raw.categories st)
  && defined (Raw.transactions st) && defined (Raw.goals st).
End Defined.

(* ================================================================== *)
(** * All the actions of the page on the engine state *)
(* ================================================================== *)

Module Actions.

Inductive action : Type :=
| Engine (op : operation)
| AddCategory (cid : string) (n : prim)
| UpdateCategory (id : prim) (patch : Patch.t)
| RemoveCategory (id : prim).

Definition perform (a : action) (st : State) : State :=
  match a with
  | Engine op => run op st
  | AddCategory cid n => Crud.addCategory cid n st
  | UpdateCategory id patch => Crud.updateCategory id patch st
  | RemoveCategory id => Crud.removeCategory id st
  end.

(** What an engine operation never changes of a category. *)
Definition shape (c : Category.t) : string * prim * prim :=
  (Category.id c, Category.name c, Category.percent c).

Definition unique_ids (st : State) : Prop :=
  NoDup (map Category.id (categories st)).

(** The balance is a whole number of units. *)
Definition whole (x : number) : Prop := exists z : Z, x = of_Z z.

(** Unique ids and balances [>= 0]. *)
Definition well_kept (st : State) : Prop :=
  unique_ids st /\ nonneg_balances st.

(** The inputs on which an action keeps the state well kept: an engine
    operation as in [admissible]; a new category with an id not in
    use; a patch that leaves the id alone and sets no negative
    balance. *)
Definition allowed (a : action) (st : State) : Prop :=
  match a with
  | Engine op => admissible op st
  | AddCategory cid _ => ~ In cid (map Category.id (categories st))
  | UpdateCategory _ patch =>
      Patch.id patch = None
      /\ match Patch.balance patch with
         | Some b => geb b zero = true
         | None => True
         end
  | RemoveCategory _ => True
  end.

(** A run of actions, each allowed in the state it meets. *)
Fixpoint allowed_run (l : list action) (st : State) : Prop :=
  match l with
  | [] => True
  | a :: r => allowed a st /\ allowed_run r (perform a st)
  end.

Definition perform_all (l : list action) (st : State) : State :=
  fold_left (fun s a => perform a s) l st.
End Actions.

(* ================================================================== *)
(** * The component around [importData]: the [income] effect *)
(* ================================================================== *)

(** [setIncome] inside [importData] changes a dependency of the effect
    [useEffect(() => { distributeIncome(); ... }, [income])].  The
    updates that the handler queued are applied together; then, when
    the income is not the income of the render before, the effect runs
    [distributeIncome] on the new state. *)

Module Component.
Import Snapshot.
Local Open Scope string_scope.

(** [Object.is] on primitives, the comparison of effect dependencies:
    [===] except that [NaN] is [NaN]. *)
Definition Object_is (v w : prim) : bool :=
  match v, w with
  | PNum NaN, PNum NaN => true
  | _, _ => strict_eq v w
  end.

(** The state after the effect. *)
Definition income_effect (before after : State) : State :=
  if Object_is (income after) (income before) then after
  else distributeIncome after.

(** Reading the engine's records back from JavaScript objects. *)
Definition to_category (v : value) : option Category.t :=
  match v with
  | VObj [(k1, VPrim (PStr i)); (k2, VPrim n); (k3, VPrim p);
          (k4, VPrim (PNum b))] =>
      if String.eqb k1 "id" && String.eqb k2 "name"
         && String.eqb k3 "percent" && String.eqb k4 "balance"
      then Some (Category.mk i n p b)
      else None
  | _ => None
  end.

Definition to_transaction (v : value) : option Transaction.t :=
  match v with
  | VObj [(k1, VPrim (PStr i)); (k2, VPrim t); (k3, VPrim (PNum a));
          (k4, VPrim c); (k5, VPrim (PStr d))] =>
      if String.eqb k1 "id" && String.eqb k2 "title"
         && String.eqb k3 "amount" && String.eqb k4 "categoryId"
         && String.eqb k5 "date"
      then Some (Transaction.mk i t a c d)
      else None
  | _ => None
  end.

Definition to_goal (v : value) : option Goal.t :=
  match v with
  | VObj [(k1, VPrim (PStr i)); (k2, VPrim n); (k3, VPrim (PNum t));
          (k4, VPrim (PNum s))] =>
      if String.eqb k1 "id" && String.eqb k2 "name"
         && String.eqb k3 "targetAmount" && String.eqb k4 "saved"
      then Some (Goal.mk i n t s)
      else None
  | _ => None
  end.

Fixpoint all_some {A : Type} (l : list (option A)) : option (list A) :=
  match l with
  | [] => Some []
  | Some x :: r =>
      match all_some r with
      | Some xs => Some (x :: xs)
      | None => None
      end
  | None :: _ => None
  end.

Definition to_list {A : Type} (f : value -> option A) (v : value)
  : option (list A) :=
  match v with
  | VArr items => all_some (map f items)
  | _ => None
  end.

(** The state as records, when its four values have that shape. *)
Definition to_state (r : Raw.state) : option State :=
  match Raw.income r,
        to_list to_category (Raw.categories r),
        to_list to_transaction (Raw.transactions r),
        to_list to_goal (Raw.goals r) with
  | VPrim i, Some cs, Some ts, Some gs => Some (mkState i cs ts gs)
  | _, _, _, _ => None
  end.

(** The component once a file was read: the handler, then the effect.
    The result is [None] when the state in memory or the state the
    handler leaves is not made of the engine's records, on which
    [distributeIncome] is modelled. *)
Definition importFile {J : JSON} (cur : Raw.state) (doc : text)
  : option (Raw.state * option string) :=
  let '(s, alert) := importData cur doc in
  match to_state cur, to_state s with
  | Some before, Some after =>
      Some (of_state (income_effect before after), alert)
  | _, _ => None
  end.

(** A state whose category [c1] holds an infinite balance. *)
Definition infinite_balance_state : State :=
  {| income := PNum (of_Z 1000);
     categories :=
       [ {| Category.id := "c1"; Category.name := PStr "Savings";
            Category.percent := PNum (of_Z 100);
            Category.balance := PosInf |} ];
     transactions := [];
     goals := [] |}.
End Component.

(* ================================================================== *)
(** * Canonical rationals: bridge lemmas from [Qc] to [Q] *)
(* ================================================================== *)

Section QcBridge.
Local Open Scope Qc_scope.

Lemma this_plus (a b : Qc) : (this (a + b) == this a + this b)%Q.
Proof. unfold Qcplus, Q2Qc; cbn [this]; apply Qred_correct. Qed.

Lemma this_mult (a b : Qc) : (this (a * b) == this a * this b)%Q.
Proof. unfold Qcmult, Q2Qc; cbn [this]; apply Qred_correct. Qed.

Lemma this_opp (a : Qc) : (this (- a) == - this a)%Q.
Proof. unfold Qcopp, Q2Qc; cbn [this]; apply Qred_correct. Qed.

Lemma this_minus (a b : Qc) : (this (a - b) == this a - this b)%Q.
Proof. unfold Qcminus; rewrite this_plus, this_opp; reflexivity. Qed.

Lemma this_Q2Qc (q : Q) : (this (Q2Qc q) == q)%Q.
Proof. apply Qred_correct. Qed.

Lemma this_0 : this 0 = 0%Q.
Proof. reflexivity. Qed.

Lemma this_1 : this 1 = 1%Q.
Proof. reflexivity. Qed.
End QcBridge.

(** Turns a goal about [Qc] orders into one about [Q] that [lra] reads. *)
Ltac qc2q :=
  unfold Qcle, Qclt in *;
  repeat rewrite ?this_plus, ?this_mult, ?this_opp, ?this_minus,
                 ?this_Q2Qc, ?this_0, ?this_1 in *.

(** Closes an equation between closed canonical rationals. *)
Ltac qc_refl := apply Qc_is_canon; reflexivity.

(** Evaluates both sides of an equation between numbers. *)
Ltac num_compute :=
  vm_compute; repeat first [ reflexivity | qc_refl | f_equal ].

(* ================================================================== *)
(** * Facts about numbers *)
(* ================================================================== *)

Module NumberFacts.
Import JS.
Local Open Scope Qc_scope.

Lemma Qc_eq_bool_false (a b : Qc) : a <> b -> Qc_eq_bool a b = false.
Proof.
  intros Hab. destruct (Qc_eq_bool a b) eqn:E; [|reflexivity].
  apply Qc_eq_bool_correct in E. contradiction.
Qed.

Lemma Qc_eq_bool_refl (a : Qc) : Qc_eq_bool a a = true.
Proof.
  unfold Qc_eq_bool. destruct (Qc_eq_dec a a); [reflexivity|contradiction].
Qed.

Lemma compare_Gt (a b : Qc) : (a ?= b) = Gt <-> b < a.
Proof. symmetry. exact (Qcgt_alt a b). Qed.

Lemma compare_Lt (a b : Qc) : (a ?= b) = Lt <-> a < b.
Proof. symmetry. apply Qclt_alt. Qed.

Lemma compare_Eq (a b : Qc) : (a ?= b) = Eq <-> a = b.
Proof. symmetry. apply Qceq_alt. Qed.

Lemma add_zero_l (x : number) : add zero x = x.
Proof. destruct x; cbn; try reflexivity. f_equal. ring. Qed.

(** [x >= 0] read on the shape of [x]. *)
Lemma geb_zero (x : number) :
  geb x zero = true <-> x = PosInf \/ exists q, x = Fin q /\ 0 <= q.
Proof.
  unfold geb, zero. destruct x as [| | |q]; cbn.
  - split; [discriminate|]. intros [H|(q & H & _)]; discriminate.
  - split; auto.
  - split; [discriminate|]. intros [H|(q & H & _)]; discriminate.
  - destruct (q ?= 0) eqn:E.
    + apply compare_Eq in E. subst. split; [|reflexivity].
      intros _. right. exists 0. split; [reflexivity|apply Qcle_refl].
    + apply compare_Lt in E. split; [discriminate|].
      intros [H|(q' & H & Hq)]; [discriminate|]. injection H as <-.
      exfalso. apply (Qclt_not_le _ _ E Hq).
    + apply compare_Gt in E. split; [|reflexivity].
      intros _. right. exists q. split; [reflexivity|].
      apply Qclt_le_weak, E.
Qed.

Lemma gtb_zero (x : number) :
  gtb x zero = true <-> x = PosInf \/ exists q, x = Fin q /\ 0 < q.
Proof.
  unfold gtb, zero. destruct x as [| | |q]; cbn.
  - split; [discriminate|]. intros [H|(q & H & _)]; discriminate.
  - split; auto.
  - split; [discriminate|]. intros [H|(q & H & _)]; discriminate.
  - destruct (q ?= 0) eqn:E.
    + apply compare_Eq in E. subst. split; [discriminate|].
      intros [H|(q' & H & Hq)]; [discriminate|]. injection H as <-.
      exfalso. apply (Qclt_not_le _ _ Hq (Qcle_refl 0)).
    + apply compare_Lt in E. split; [discriminate|].
      intros [H|(q' & H & Hq)]; [discriminate|]. injection H as <-.
      exfalso. apply (Qclt_not_le _ _ E), Qclt_le_weak, Hq.
    + apply compare_Gt in E. split; [|reflexivity].
      intros _. right. exists q. split; [reflexivity|exact E].
Qed.

Lemma geb_fin (a b : Qc) : geb (Fin a) (Fin b) = true <-> b <= a.
Proof.
  unfold geb; cbn. destruct (a ?= b) eqn:E.
  - apply compare_Eq in E. subst. split; [intros _; apply Qcle_refl|auto].
  - apply compare_Lt in E. split; [discriminate|].
    intros H. exfalso. apply (Qclt_not_le _ _ E H).
  - apply compare_Gt in E. split; [intros _; apply Qclt_le_weak, E|auto].
Qed.

Lemma leb_fin (a b : Qc) : leb (Fin a) (Fin b) = true <-> a <= b.
Proof.
  unfold leb; cbn. destruct (a ?= b) eqn:E.
  - apply compare_Eq in E. subst. split; [intros _; apply Qcle_refl|auto].
  - apply compare_Lt in E. split; [intros _; apply Qclt_le_weak, E|auto].
  - apply compare_Gt in E. split; [discriminate|].
    intros H. exfalso. apply (Qclt_not_le _ _ E H).
Qed.

Lemma gtb_fin (a b : Qc) : gtb (Fin a) (Fin b) = true <-> b < a.
Proof.
  unfold gtb; cbn. destruct (a ?= b) eqn:E.
  - apply compare_Eq in E. subst. split; [discriminate|].
    intros H. exfalso. apply (Qclt_not_le _ _ H (Qcle_refl b)).
  - apply compare_Lt in E. split; [discriminate|].
    intros H. exfalso. apply (Qclt_not_le _ _ E), Qclt_le_weak, H.
  - apply compare_Gt in E. split; auto.
Qed.

Lemma ltb_fin (a b : Qc) : ltb (Fin a) (Fin b) = true <-> a < b.
Proof.
  unfold ltb; cbn. destruct (a ?= b) eqn:E.
  - apply compare_Eq in E. subst. split; [discriminate|].
    intros H. exfalso. apply (Qclt_not_le _ _ H (Qcle_refl b)).
  - apply compare_Lt in E. split; auto.
  - apply compare_Gt in E. split; [discriminate|].
    intros H. exfalso. apply (Qclt_not_le _ _ E), Qclt_le_weak, H.
Qed.

(** [Math.max(x, 1)] is [x] itself once [x >= 1]. *)
Lemma Math_max_ge (x y : number) : geb x y = true -> Math_max x y = x.
Proof.
  unfold geb, Math_max. destruct (compare x y) as [[ | | ]|];
    intros H; try discriminate; reflexivity.
Qed.

(** A number [>= 1] is not [=== 0]. *)
Lemma ge_one_not_zero (x : number) : geb x one = true -> eqb x zero = false.
Proof.
  unfold geb, eqb, one, zero. destruct x as [| | |q]; cbn; try reflexivity.
  destruct (q ?= 1) eqn:E; try discriminate; intros _.
  - apply compare_Eq in E. subst. reflexivity.
  - apply compare_Gt in E.
    assert (H : 0 < q) by (qc2q; lra).
    apply compare_Gt in H. rewrite H. reflexivity.
Qed.

(** [Number(v) || 0] is never [NaN]. *)
Lemma or_else_zero_not_NaN (x : number) : or_else x zero <> NaN.
Proof. unfold or_else, zero. destruct x; cbn; try discriminate.
  destruct (negb _); discriminate. Qed.

Lemma of_Z_inject (z : Z) : (this (Q2Qc (inject_Z z)) == inject_Z z)%Q.
Proof. apply this_Q2Qc. Qed.
End NumberFacts.

(* ================================================================== *)
(** * Examples: [Number] and the scenario of the specification *)
(* ================================================================== *)

Module ToNumberExamples.
Local Open Scope string_scope.

Example number_of_600 : Number (PStr "600") = of_Z 600.
Proof. num_compute. Qed.

Example number_of_fraction : Number (PStr " -12.5e1 ") = of_Z (-125).
Proof. num_compute. Qed.

Example number_of_hex : Number (PStr "0x1F") = of_Z 31.
Proof. num_compute. Qed.

Example number_of_blank : Number (PStr "") = zero.
Proof. reflexivity. Qed.

Example number_of_text : Number (PStr "abc") = NaN.
Proof. reflexivity. Qed.

Example number_of_lone_dot : Number (PStr ".") = NaN.
Proof. reflexivity. Qed.

Example number_of_signed_hex : Number (PStr "-0x10") = NaN.
Proof. reflexivity. Qed.

Example number_of_infinity : Number (PStr "-Infinity") = NegInf.
Proof. reflexivity. Qed.

Example non_numeric_is_0 : Number_or_0 (PStr "abc") = zero.
Proof. reflexivity. Qed.

Example undefined_is_0 : Number_or_0 PUndefined = zero.
Proof. reflexivity. Qed.
End ToNumberExamples.

Module ScenarioExamples.
Import Scenario.
Local Open Scope string_scope.

(** The scenario of the specification: an income of 1000 over 50, 30
    and 20 percent; an expense of 600 on the first category; a goal
    of 1000 fed from the second. *)
Example scenario_distribute :
  balances after_distribute = [of_Z 500; of_Z 300; of_Z 200].
Proof. num_compute. Qed.

Example scenario_expense :
  balances after_expense = [of_Z 0; of_Z 300; of_Z 200].
Proof. num_compute. Qed.

Example scenario_goal :
  balances after_goal = [of_Z 0; of_Z 0; of_Z 200]
  /\ map Goal.saved (goals after_goal) = [of_Z 300].
Proof. split; num_compute. Qed.
End ScenarioExamples.

(* ================================================================== *)
(** * Allocation: [distributeIncome] *)
(* ================================================================== *)

Module DistributionFacts.
Import NumberFacts.

(** The two branches of [distributeIncome], by the test on the total. *)
Lemma distribute_cases (st : State) :
  categories st <> [] ->
  categories (distributeIncome st) =
    if eqb (totalPercent (categories st)) zero
    then map (fun c => Category.with_balance c
                         (equal (income st) (categories st)))
             (categories st)
    else map (fun c => Category.with_balance c
                         (allocated (totalPercent (categories st))
                                    (income st) c))
             (categories st).
Proof.
  unfold distributeIncome. destruct (categories st) as [|c cs] eqn:E.
  - intros H. contradiction.
  - intros _. destruct (eqb _ zero); reflexivity.
Qed.

Lemma distribute_empty (st : State) :
  categories st = [] -> distributeIncome st = st.
Proof. unfold distributeIncome. intros ->. reflexivity. Qed.

Lemma map_balance_with_balance (f : Category.t -> number) cs :
  map Category.balance (map (fun c => Category.with_balance c (f c)) cs)
  = map f cs.
Proof. induction cs as [|c cs IH]; cbn; [reflexivity|]. now rewrite IH. Qed.

Lemma Forall2_with_balance (f : Category.t -> number) cs :
  Forall2 (fun c c' =>
             Category.id c' = Category.id c
             /\ Category.name c' = Category.name c
             /\ Category.percent c' = Category.percent c)
          cs (map (fun c => Category.with_balance c (f c)) cs).
Proof. induction cs; cbn; constructor; auto. Qed.

Lemma Forall2_same_fields cs :
  Forall2 (fun c c' : Category.t =>
             Category.id c' = Category.id c
             /\ Category.name c' = Category.name c
             /\ Category.percent c' = Category.percent c)
          cs cs.
Proof. induction cs; constructor; auto. Qed.
(** From a total of one on, the balances are the stated shares. *)
Lemma distribute_shares (st : State) :
  geb (totalPercent (categories st)) one = true ->
  map Category.balance (categories (distributeIncome st))
  = map (share (totalPercent (categories st)) (income st)) (categories st).
Proof.
  intros HT.
  assert (Hne : categories st <> []).
  { intros E. rewrite E in HT. discriminate HT. }
  rewrite distribute_cases by exact Hne.
  rewrite (ge_one_not_zero _ HT), map_balance_with_balance.
  apply map_ext. intros c. unfold allocated, share.
  rewrite (Math_max_ge _ _ HT). reflexivity.
Qed.
End DistributionFacts.

Import NumberFacts DistributionFacts.

(** C9.  [distributeIncome] changes balances only: the categories after
    it correspond one to one, in order, to the categories before it,
    each with the same id, name and percent; the list keeps its length,
    and income, transactions and goals are untouched. *)
Theorem distribute_frame (st : State) :
  Forall2 (fun c c' =>
             Category.id c' = Category.id c
             /\ Category.name c' = Category.name c
             /\ Category.percent c' = Category.percent c)
          (categories st) (categories (distributeIncome st))
  /\ List.length (categories (distributeIncome st))
     = List.length (categories st)
  /\ income (distributeIncome st) = income st
  /\ transactions (distributeIncome st) = transactions st
  /\ goals (distributeIncome st) = goals st.
Proof.
  assert (F : Forall2 (fun c c' =>
             Category.id c' = Category.id c
             /\ Category.name c' = Category.name c
             /\ Category.percent c' = Category.percent c)
          (categories st) (categories (distributeIncome st))).
  { destruct (categories st) as [|c cs] eqn:E.
    - rewrite distribute_empty by exact E. rewrite E. constructor.
    - rewrite distribute_cases by (rewrite E; discriminate).
      rewrite <- E. destruct (eqb _ zero); apply Forall2_with_balance. }
  split; [exact F|]. split.
  - symmetry. eapply Forall2_length, F.
  - unfold distributeIncome.
    destruct (categories st); repeat split; reflexivity.
Qed.

(** C1.  The comment in [distributeIncome] promises that percents
    which do not sum to 100 are normalised proportionally, that is a
    balance of [round(percent / T * I)] for a total [T > 0].  Below a
    total of one the code does not do so: the percents of [half_state]
    sum to [1/2 > 0], the proportional share is
    [round(0.5 / 0.5 * 100) = 100], and the balance allocated is
    [round(0.5 / Math.max(0.5, 1) * 100) = 50]. *)
Lemma distribute_proportional_counterexample :
  categories half_state <> []
  /\ gtb (totalPercent (categories half_state)) zero = true
  /\ map (share (totalPercent (categories half_state)) (income half_state))
         (categories half_state) = [of_Z 100]
  /\ map Category.balance (categories (distributeIncome half_state))
     = [of_Z 50]
  /\ map Category.balance (categories (distributeIncome half_state))
     <> map (share (totalPercent (categories half_state))
                   (income half_state))
            (categories half_state).
Proof.
  assert (S : map (share (totalPercent (categories half_state))
                         (income half_state))
                  (categories half_state) = [of_Z 100]).
  { num_compute. }
  assert (B : map Category.balance (categories (distributeIncome half_state))
              = [of_Z 50]).
  { num_compute. }
  repeat split; try assumption.
  - discriminate.
  - rewrite S, B. intros H.
    apply (f_equal (fun l => match l with
                             | Fin q :: _ => Qnum (this q)
                             | _ => 0%Z
                             end)) in H.
    vm_compute in H. discriminate H.
Qed.

(** C5.  When the percents sum to zero ([tp === 0]) and there is at
    least one category, every category gets the same balance
    [floor(I / count)]; nothing else is given to any category. *)
Theorem distribute_equal_split (st : State) :
  categories st <> [] ->
  eqb (totalPercent (categories st)) zero = true ->
  Forall (fun c' =>
            Category.balance c'
            = equal_share (income st) (List.length (categories st)))
         (categories (distributeIncome st))
  /\ List.length (categories (distributeIncome st))
     = List.length (categories st).
Proof.
  intros Hne Hz. rewrite distribute_cases by exact Hne. rewrite Hz.
  split; [|apply length_map].
  apply Forall_forall. intros c' Hin. apply in_map_iff in Hin.
  destruct Hin as (c & <- & _). reflexivity.
Qed.

Lemma distribute_equal_split_witness :
  Forall (fun c' => Category.balance c' = equal_share (PNum (of_Z 101)) 2)
         (categories (distributeIncome unallocated_state))
  /\ List.length (categories (distributeIncome unallocated_state)) = 2%nat.
Proof.
  apply (distribute_equal_split unallocated_state).
  - discriminate.
  - reflexivity.
Defined.

(* ================================================================== *)
(** * Sums of finite percents *)
(* ================================================================== *)

Module RoundingFacts.
Local Open Scope Qc_scope.

Lemma finite_values (A : Type) (f : A -> number) (l : list A) :
  Forall (fun c => is_finite (f c) = true) l ->
  exists qs, map f l = map Fin qs.
Proof.
  induction 1 as [|c l Hc _ (qs & IH)].
  - exists []. reflexivity.
  - destruct (f c) as [| | |q] eqn:E; try discriminate Hc.
    exists (q :: qs). cbn. now rewrite E, IH.
Qed.

Lemma fold_add_map (A : Type) (f : A -> number) (l : list A) (a : number) :
  fold_left (fun s c => add s (f c)) l a = fold_left add (map f l) a.
Proof. revert a. induction l as [|c l IH]; intros a; cbn; auto. Qed.

Lemma fold_add_fin (qs : list Qc) (a : Qc) :
  fold_left add (map Fin qs) (Fin a) = Fin (a + qsum qs).
Proof.
  revert a. induction qs as [|q qs IH]; intros a; cbn [map fold_left].
  - f_equal. cbn. ring.
  - cbn [add]. rewrite IH. f_equal.
    change (qsum (q :: qs)) with (q + qsum qs). ring.
Qed.

Lemma totalPercent_fin (cs : list Category.t) (qs : list Qc) :
  map (fun c => Number_or_0 (Category.percent c)) cs = map Fin qs ->
  totalPercent cs = Fin (qsum qs).
Proof.
  intros H. unfold totalPercent.
  rewrite (fold_add_map _ (fun c => Number_or_0 (Category.percent c))), H.
  unfold zero. rewrite fold_add_fin. f_equal. ring.
Qed.
End RoundingFacts.

Import RoundingFacts.

(** C4.  Proportional normalisation, which the comment in
    [distributeIncome] promises, would make the balances sum to the
    income up to one unit per category.  Below a total of one the
    code does not normalise: the single category of [half_state]
    weighs [1/2 > 0] and receives [50] of an income of [100], so the
    sum of the balances is [50] units away from the income, with one
    category. *)
Lemma distribute_sum_bound_counterexample :
  categories half_state <> []
  /\ gtb (totalPercent (categories half_state)) zero = true
  /\ sum_balances (categories (distributeIncome half_state)) = of_Z 50
  /\ Number (income half_state) = of_Z 100
  /\ leb (Math_abs (sub (sum_balances
                           (categories (distributeIncome half_state)))
                        (Number (income half_state))))
         (of_nat (List.length (categories half_state))) = false.
Proof.
  repeat split; try discriminate; num_compute.
Qed.

(* ================================================================== *)
(** * Ledger: [addTransaction] *)
(* ================================================================== *)

Module LedgerFacts.
Local Open Scope string_scope.

(** The transaction is put in front of the log, whatever the
    category. *)
Lemma addTransaction_log (txid now : string) (a : TxArgs.t) (st : State) :
  transactions (addTransaction txid now a st)
  = {| Transaction.id := txid;
       Transaction.title := TxArgs.title a;
       Transaction.amount := signed a;
       Transaction.categoryId := TxArgs.categoryId a;
       Transaction.date := now |} :: transactions st.
Proof.
  unfold addTransaction. destruct (truthy (TxArgs.categoryId a)); reflexivity.
Qed.

Lemma strict_eq_expense (ty : prim) :
  strict_eq ty (PStr "expense") = true <-> ty = PStr "expense".
Proof.
  destruct ty as [| |b|n|s]; cbn; try (split; discriminate).
  rewrite String.eqb_eq. split; [intros ->; reflexivity|].
  intros H. now injection H.
Qed.

Lemma signed_expense (a : TxArgs.t) :
  TxArgs.type a = PStr "expense" ->
  signed a = neg (Math_abs (Number_or_0 (TxArgs.amount a))).
Proof. unfold signed. intros ->. reflexivity. Qed.

Lemma signed_other (a : TxArgs.t) :
  TxArgs.type a <> PStr "expense" ->
  TxArgs.type a <> PUndefined ->
  signed a = Math_abs (Number_or_0 (TxArgs.amount a)).
Proof.
  unfold signed. intros He Hu.
  destruct (strict_eq (type_or_default (TxArgs.type a)) (PStr "expense"))
    eqn:E; [|reflexivity].
  apply strict_eq_expense in E. exfalso.
  destruct (TxArgs.type a); cbn in E; try discriminate E;
    try contradiction.
Qed.

(** A type that is left out takes the default and gives an expense. *)
Lemma signed_default (a : TxArgs.t) :
  TxArgs.type a = PUndefined ->
  signed a = neg (Math_abs (Number_or_0 (TxArgs.amount a))).
Proof. unfold signed. intros ->. reflexivity. Qed.
End LedgerFacts.

Import LedgerFacts.

(** C6.  [addTransaction] records, in front of the log, a transaction
    whose amount is [-abs(A)] when the type is ["expense"] and
    [+abs(A)] for any other type that is passed (["income"] included),
    where [A] is the amount coerced by [Number(..) || 0]. *)
Theorem transaction_sign_law
  (txid now : string) (a : TxArgs.t) (st : State) :
  let A := Number_or_0 (TxArgs.amount a) in
  exists tx,
    transactions (addTransaction txid now a st) = tx :: transactions st
    /\ (TxArgs.type a = PStr "expense" ->
        Transaction.amount tx = neg (Math_abs A))
    /\ (TxArgs.type a <> PStr "expense" ->
        TxArgs.type a <> PUndefined ->
        Transaction.amount tx = Math_abs A).
Proof.
  intros A. eexists. split; [apply addTransaction_log|].
  cbn [Transaction.amount]. split.
  - apply signed_expense.
  - apply signed_other.
Qed.

Lemma transaction_sign_law_witness :
  (exists tx,
      transactions (addTransaction "tx1" "d" rent Scenario.start)
      = tx :: transactions Scenario.start
      /\ Transaction.amount tx
         = neg (Math_abs (Number_or_0 (TxArgs.amount rent))))
  /\ (exists tx,
         transactions (addTransaction "tx2" "d" salary Scenario.start)
         = tx :: transactions Scenario.start
         /\ Transaction.amount tx
            = Math_abs (Number_or_0 (TxArgs.amount salary))).
Proof.
  split.
  - destruct (transaction_sign_law "tx1" "d" rent Scenario.start)
      as (tx & Hlog & Hexp & _).
    exists tx. split; [exact Hlog|]. apply Hexp. reflexivity.
  - destruct (transaction_sign_law "tx2" "d" salary Scenario.start)
      as (tx & Hlog & _ & Hinc).
    exists tx. split; [exact Hlog|]. apply Hinc; discriminate.
Defined.

(* ================================================================== *)
(** * Goal transfer: [createGoal] *)
(* ================================================================== *)

Module GoalTransferFacts.
Local Open Scope string_scope.

Lemma strict_eq_PStr (s : string) (v : prim) :
  strict_eq (PStr s) v = true <-> v = PStr s.
Proof.
  destruct v as [| |b|n|s']; cbn; try (split; discriminate).
  rewrite String.eqb_eq. split; [intros ->; reflexivity|].
  intros H. now injection H.
Qed.

Lemma truthy_PStr (s : string) : s <> "" -> truthy (PStr s) = true.
Proof.
  intros H. cbn. destruct (String.eqb s "") eqn:E; [|reflexivity].
  apply String.eqb_eq in E. contradiction.
Qed.

(** With unique ids, a category is known by its id. *)
Lemma unique_by_id (cs : list Category.t) (c c' : Category.t) :
  NoDup (map Category.id cs) ->
  In c cs -> In c' cs -> Category.id c' = Category.id c -> c' = c.
Proof.
  induction cs as [|x cs IH]; cbn; intros Hnd Hc Hc' Hid; [contradiction|].
  inversion Hnd as [|? ? Hx Hnd']; subst.
  destruct Hc as [->|Hc], Hc' as [->|Hc'].
  - reflexivity.
  - exfalso. apply Hx. rewrite <- Hid. now apply in_map.
  - exfalso. apply Hx. rewrite Hid. now apply in_map.
  - now apply IH.
Qed.

(** With unique ids, the lookup finds the category itself. *)
Lemma find_by_id (cs : list Category.t) (c : Category.t) :
  NoDup (map Category.id cs) ->
  In c cs ->
  find (fun cc => strict_eq (PStr (Category.id cc)) (PStr (Category.id c)))
       cs = Some c.
Proof.
  intros Hnd Hc.
  destruct (find _ cs) as [c'|] eqn:F.
  - apply find_some in F. destruct F as [Hin Heq].
    apply strict_eq_PStr in Heq. injection Heq as Heq.
    f_equal. apply (unique_by_id cs); auto.
  - exfalso. apply (find_none _ _ F) in Hc. cbn in Hc.
    rewrite String.eqb_refl in Hc. discriminate Hc.
Qed.

Lemma withdraw_spec (cs : list Category.t) (c : Category.t) (m : number) :
  NoDup (map Category.id cs) ->
  In c cs ->
  map (fun cc =>
         if strict_eq (PStr (Category.id cc)) (PStr (Category.id c))
         then Category.with_balance cc (sub (Category.balance cc) m)
         else cc) cs
  = withdraw c m cs.
Proof.
  intros Hnd Hc. apply map_ext_in. intros cc Hcc. cbn.
  destruct (String.eqb (Category.id cc) (Category.id c)) eqn:E;
    [|reflexivity].
  apply String.eqb_eq in E.
  now rewrite (unique_by_id cs c cc Hnd Hc Hcc E).
Qed.

(** The state after [createGoal] when the source holds funds. *)
Lemma createGoal_funded (gid : string) (a : GoalArgs.t) (st : State)
      (c : Category.t) :
  NoDup (map Category.id (categories st)) ->
  In c (categories st) ->
  GoalArgs.fromCategoryId a = PStr (Category.id c) ->
  Category.id c <> "" ->
  gtb (Category.balance c) zero = true ->
  let m := Math_min (Category.balance c)
                    (Number_or_0 (GoalArgs.targetAmount a)) in
  createGoal gid a st
  = {| income := income st;
       categories := withdraw c m (categories st);
       transactions := transactions st;
       goals := credit gid m (goals st)
                ++ [Goal.with_saved (new_goal gid a) m] |}.
Proof.
  intros Hnd Hc Hfrom Hid Hpos m. unfold createGoal.
  rewrite Hfrom, (truthy_PStr _ Hid), (find_by_id _ _ Hnd Hc), Hpos.
  cbn [setGoals setCategories income categories transactions goals
       new_goal Goal.id Goal.targetAmount].
  fold m. rewrite (withdraw_spec _ _ m Hnd Hc). f_equal.
  rewrite map_app. cbn [map Goal.id Goal.saved new_goal].
  rewrite String.eqb_refl, add_zero_l. reflexivity.
Qed.

(** The state after [createGoal] when the source holds nothing. *)
Lemma createGoal_unfunded (gid : string) (a : GoalArgs.t) (st : State)
      (c : Category.t) :
  NoDup (map Category.id (categories st)) ->
  In c (categories st) ->
  GoalArgs.fromCategoryId a = PStr (Category.id c) ->
  gtb (Category.balance c) zero = false ->
  createGoal gid a st = setGoals st (goals st ++ [new_goal gid a]).
Proof.
  intros Hnd Hc Hfrom Hpos. unfold createGoal. rewrite Hfrom.
  destruct (truthy _); [|reflexivity].
  rewrite (find_by_id _ _ Hnd Hc), Hpos. reflexivity.
Qed.
End GoalTransferFacts.

Import GoalTransferFacts.

(** C3, as amended.  In a state with unique category ids, let [c] be
    the category with the non-empty id [fromCategoryId], [B] its
    balance and [t] the target coerced by [Number(..) || 0].  When
    [B > 0], [createGoal] appends a goal with [saved = min(B, t)],
    lowers the balance of [c] by exactly [min(B, t)] and leaves every
    other category as it was.  When [B > 0] does not hold, the goal is
    appended with [saved = 0] and no category changes. *)
Theorem createGoal_funding
  (gid : string) (a : GoalArgs.t) (st : State) (c : Category.t) :
  NoDup (map Category.id (categories st)) ->
  In c (categories st) ->
  GoalArgs.fromCategoryId a = PStr (Category.id c) ->
  Category.id c <> ""%string ->
  let B := Category.balance c in
  let t := Number_or_0 (GoalArgs.targetAmount a) in
  (gtb B zero = true ->
   (exists gs g,
       goals (createGoal gid a st) = gs ++ [g]
       /\ List.length gs = List.length (goals st)
       /\ Goal.id g = gid
       /\ Goal.targetAmount g = t
       /\ Goal.saved g = Math_min B t)
   /\ categories (createGoal gid a st)
      = map (fun cc =>
               if String.eqb (Category.id cc) (Category.id c)
               then Category.with_balance c (sub B (Math_min B t))
               else cc)
            (categories st))
  /\ (gtb B zero = false ->
      goals (createGoal gid a st)
      = goals st
        ++ [ {| Goal.id := gid; Goal.name := GoalArgs.name a;
                Goal.targetAmount := t; Goal.saved := zero |} ]
      /\ categories (createGoal gid a st) = categories st).
Proof.
  intros Hnd Hc Hfrom Hid B t. split; intros HB.
  - rewrite (createGoal_funded gid a st c Hnd Hc Hfrom Hid HB).
    cbn [goals categories]. split; [|reflexivity].
    exists (credit gid (Math_min B t) (goals st)).
    eexists. split; [reflexivity|].
    split; [apply length_map|]. repeat split.
  - rewrite (createGoal_unfunded gid a st c Hnd Hc Hfrom HB).
    split; reflexivity.
Qed.

Lemma createGoal_funding_witness :
  (exists gs g,
      goals (createGoal "g1" trip funded_state) = gs ++ [g]
      /\ List.length gs = List.length (goals funded_state)
      /\ Goal.id g = "g1"%string
      /\ Goal.targetAmount g = Number_or_0 (GoalArgs.targetAmount trip)
      /\ Goal.saved g
         = Math_min (of_Z 300) (Number_or_0 (GoalArgs.targetAmount trip)))
  /\ categories (createGoal "g1" trip funded_state)
     = map (fun cc =>
              if String.eqb (Category.id cc) "c1"
              then Category.with_balance savings
                     (sub (of_Z 300)
                          (Math_min (of_Z 300)
                             (Number_or_0 (GoalArgs.targetAmount trip))))
              else cc)
           (categories funded_state).
Proof.
  apply (createGoal_funding "g1" trip funded_state savings).
  - repeat constructor; cbn; intuition discriminate.
  - right. left. reflexivity.
  - reflexivity.
  - discriminate.
  - reflexivity.
Defined.

(** C3 as stated fails when the source category is empty and the
    target is negative: with [B = 0] and a target of [-5] the stated
    amount is [min(0, -5) = -5], while [createGoal] transfers nothing
    and the goal has [saved = 0]. *)
Lemma createGoal_funding_counterexample :
  map Category.id (categories empty_category_state) = ["c1"%string]
  /\ GoalArgs.fromCategoryId negative_target = PStr "c1"
  /\ map Category.balance (categories empty_category_state) = [zero]
  /\ Math_min zero (Number_or_0 (GoalArgs.targetAmount negative_target))
     = of_Z (-5)
  /\ map Goal.saved
         (goals (createGoal "g1" negative_target empty_category_state))
     = [zero]
  /\ map Goal.saved
         (goals (createGoal "g1" negative_target empty_category_state))
     <> [Math_min zero
           (Number_or_0 (GoalArgs.targetAmount negative_target))].
Proof.
  repeat split; try num_compute.
  intros H.
  apply (f_equal (fun l => match l with
                           | Fin q :: _ => Qnum (this q)
                           | _ => 1%Z
                           end)) in H.
  vm_compute in H. discriminate H.
Qed.

Module NegativeTargetFacts.
Local Open Scope Qc_scope.

(** A negative number is below every positive finite number. *)
Lemma min_negative (b : Qc) (t : number) :
  0 < b -> ltb t zero = true -> Math_min (Fin b) t = t.
Proof.
  intros Hb Ht. destruct t as [| | |q]; try discriminate Ht.
  - reflexivity.
  - apply ltb_fin in Ht. unfold Math_min. cbn [compare].
    assert (H : q < b) by (qc2q; lra).
    apply compare_Gt in H. rewrite H. reflexivity.
Qed.

(** Taking a negative number away gives strictly more. *)
Lemma sub_negative (b : Qc) (t : number) :
  ltb t zero = true -> gtb (sub (Fin b) t) (Fin b) = true.
Proof.
  intros Ht. destruct t as [| | |q]; try discriminate Ht.
  - reflexivity.
  - apply ltb_fin in Ht. cbn [sub neg add]. apply gtb_fin.
    qc2q. lra.
Qed.

(** A negative number is below every positive number. *)
Lemma min_below (B t : number) :
  gtb B zero = true -> ltb t zero = true -> Math_min B t = t.
Proof.
  intros HB Ht. apply gtb_zero in HB. destruct HB as [->|(b & -> & Hb)].
  - destruct t as [| | |q]; try discriminate Ht; reflexivity.
  - now apply min_negative.
Qed.

(** Taking a negative number away from a positive one never gives
    less. *)
Lemma sub_negative_ge (B t : number) :
  gtb B zero = true -> ltb t zero = true -> geb (sub B t) B = true.
Proof.
  intros HB Ht. apply gtb_zero in HB. destruct HB as [->|(b & -> & Hb)].
  - destruct t as [| | |q]; try discriminate Ht; reflexivity.
  - pose proof (sub_negative b t Ht) as H. unfold gtb in H. unfold geb.
    destruct (compare (sub (Fin b) t) (Fin b)) as [[ | | ]|];
      try discriminate H; reflexivity.
Qed.
End NegativeTargetFacts.

Import NegativeTargetFacts Component.

(** C10, as amended.  Let the truthy [fromCategoryId] resolve to the
    category [c] (the first with that id), holding a balance [B > 0],
    and let the target coerce to a number [t < 0].  Then [createGoal]
    appends a goal with [saved = t], a negative value, and changes the
    balance of every category with that id to its balance minus [t],
    the others staying as they are; for [c] the new balance [B - t] is
    never below [B]: the transfer pays into the category instead of
    withdrawing from it. *)
Theorem createGoal_negative_target
  (gid : string) (a : GoalArgs.t) (st : State) (c : Category.t) :
  let from := GoalArgs.fromCategoryId a in
  let B := Category.balance c in
  let t := Number_or_0 (GoalArgs.targetAmount a) in
  truthy from = true ->
  find (fun cc => strict_eq (PStr (Category.id cc)) from) (categories st)
  = Some c ->
  gtb B zero = true ->
  ltb t zero = true ->
  (exists gs g,
      goals (createGoal gid a st) = gs ++ [g]
      /\ List.length gs = List.length (goals st)
      /\ Goal.id g = gid
      /\ Goal.saved g = t)
  /\ categories (createGoal gid a st)
     = map (fun cc =>
              if strict_eq (PStr (Category.id cc)) from
              then Category.with_balance cc (sub (Category.balance cc) t)
              else cc)
           (categories st)
  /\ In (Category.with_balance c (sub B t)) (categories (createGoal gid a st))
  /\ geb (sub B t) B = true.
Proof.
  intros from B t Htruthy Hfind HB Ht.
  assert (Hcats : categories (createGoal gid a st)
     = map (fun cc =>
              if strict_eq (PStr (Category.id cc)) from
              then Category.with_balance cc (sub (Category.balance cc) t)
              else cc)
           (categories st)).
  { unfold createGoal. fold from. rewrite Htruthy, Hfind. fold B. rewrite HB.
    cbn [setCategories setGoals categories new_goal Goal.targetAmount].
    fold t. now rewrite (min_below B t HB Ht). }
  split; [|split; [exact Hcats|split]].
  - unfold createGoal. fold from. rewrite Htruthy, Hfind. fold B. rewrite HB.
    cbn [setCategories setGoals goals new_goal Goal.targetAmount Goal.id].
    fold t. rewrite (min_below B t HB Ht), map_app.
    cbn [map Goal.id Goal.saved]. rewrite String.eqb_refl, add_zero_l.
    eexists. eexists. split; [reflexivity|].
    split; [apply length_map|]. split; reflexivity.
  - rewrite Hcats. apply find_some in Hfind. destruct Hfind as [Hin Hid].
    apply in_map_iff. exists c. split; [|exact Hin]. now rewrite Hid.
  - now apply sub_negative_ge.
Qed.

Lemma createGoal_negative_target_witness :
  (exists gs g,
      goals (createGoal "g1" deposit_target funded_state) = gs ++ [g]
      /\ List.length gs = List.length (goals funded_state)
      /\ Goal.id g = "g1"%string
      /\ Goal.saved g = Number_or_0 (PStr "-40"))
  /\ categories (createGoal "g1" deposit_target funded_state)
     = map (fun cc =>
              if strict_eq (PStr (Category.id cc)) (PStr "c1")
              then Category.with_balance cc
                     (sub (Category.balance cc) (Number_or_0 (PStr "-40")))
              else cc)
           (categories funded_state)
  /\ In (Category.with_balance savings
           (sub (of_Z 300) (Number_or_0 (PStr "-40"))))
        (categories (createGoal "g1" deposit_target funded_state))
  /\ geb (sub (of_Z 300) (Number_or_0 (PStr "-40"))) (of_Z 300) = true.
Proof.
  apply (createGoal_negative_target "g1" deposit_target funded_state savings);
    reflexivity.
Defined.

(** C10 as stated fails at an infinite balance: with [B = +Infinity]
    and a target of [-5] the goal has [saved = -5] and the balance
    [B - t] is [+Infinity] again, which is not strictly greater than
    [B]. *)
Lemma createGoal_negative_target_counterexample :
  map Category.id (categories infinite_balance_state) = ["c1"%string]
  /\ GoalArgs.fromCategoryId negative_target = PStr "c1"
  /\ map Category.balance (categories infinite_balance_state) = [PosInf]
  /\ gtb PosInf zero = true
  /\ ltb (Number_or_0 (GoalArgs.targetAmount negative_target)) zero = true
  /\ map Goal.saved
         (goals (createGoal "g1" negative_target infinite_balance_state))
     = [of_Z (-5)]
  /\ map Category.balance
         (categories (createGoal "g1" negative_target infinite_balance_state))
     = [PosInf]
  /\ gtb (sub PosInf (Number_or_0 (GoalArgs.targetAmount negative_target)))
         PosInf = false.
Proof.
  repeat split; num_compute.
Qed.

(* ================================================================== *)
(** * The balances stay non-negative *)
(* ================================================================== *)

Module InvariantFacts.
Local Open Scope Qc_scope.

(** ** Signs of the arithmetic *)

Lemma this_inv (a : Qc) : (this (/ a) == / this a)%Q.
Proof. unfold Qcinv, Q2Qc; cbn [this]; apply Qred_correct. Qed.

Lemma Qc_div_nonneg (a b : Qc) : 0 <= a -> 0 < b -> 0 <= a / b.
Proof.
  intros Ha Hb. unfold Qcdiv. qc2q. rewrite this_inv.
  apply Qmult_le_0_compat; [exact Ha|].
  apply Qlt_le_weak, Qinv_lt_0_compat, Hb.
Qed.

Lemma Qc_mult_nonneg (a b : Qc) : 0 <= a -> 0 <= b -> 0 <= a * b.
Proof. intros Ha Hb. qc2q. now apply Qmult_le_0_compat. Qed.

Lemma of_Z_nonneg (z : Z) : (0 <= z)%Z -> geb (of_Z z) zero = true.
Proof.
  intros Hz. unfold of_Z, zero. apply geb_fin. qc2q.
  change 0%Q with (inject_Z 0). now rewrite <- Zle_Qle.
Qed.

Lemma floor_nonneg (a : Qc) : 0 <= a -> geb (Math_floor (Fin a)) zero = true.
Proof.
  intros Ha. cbn [Math_floor]. apply of_Z_nonneg.
  change 0%Z with (Qfloor 0). apply Qfloor_resp_le. exact Ha.
Qed.

Lemma round_nonneg (a : Qc) : 0 <= a -> geb (Math_round (Fin a)) zero = true.
Proof.
  intros Ha. cbn [Math_round]. apply of_Z_nonneg.
  change 0%Z with (Qfloor 0). apply Qfloor_resp_le.
  unfold Qcle in Ha. rewrite this_0 in Ha. lra.
Qed.

Lemma finite_nonneg_spec (x : number) :
  finite_nonneg x = true <-> exists q, x = Fin q /\ 0 <= q.
Proof.
  unfold finite_nonneg. split.
  - intros H. apply andb_prop in H. destruct H as [Hf Hg].
    destruct x as [| | |q]; try discriminate Hf.
    exists q. split; [reflexivity|]. now apply geb_fin in Hg.
  - intros (q & -> & Hq). cbn [is_finite andb]. now apply geb_fin.
Qed.

(** [Math.max(tp, 1)] of a finite total is finite and positive. *)
Lemma max_one_positive (t : Qc) :
  exists m, Math_max (Fin t) one = Fin m /\ 0 < m.
Proof.
  unfold Math_max, one. cbn [compare].
  destruct (t ?= 1) eqn:E.
  - apply compare_Eq in E. subst. exists 1. split; [reflexivity|].
    qc2q. lra.
  - exists 1. split; [reflexivity|]. qc2q. lra.
  - apply compare_Gt in E. exists t. split; [reflexivity|].
    qc2q. lra.
Qed.

Lemma allocated_nonneg (t i : Qc) (inc : prim) (c : Category.t) :
  Number inc = Fin i -> 0 <= i ->
  finite_nonneg (Number_or_0 (Category.percent c)) = true ->
  geb (allocated (Fin t) inc c) zero = true.
Proof.
  intros Hi Hi0 Hp. apply finite_nonneg_spec in Hp.
  destruct Hp as (p & Hp & Hp0).
  destruct (max_one_positive t) as (m & Hm & Hm0).
  unfold allocated. rewrite Hp, Hm, Hi. cbn [div].
  rewrite Qc_eq_bool_false.
  - cbn [mul]. apply round_nonneg, Qc_mult_nonneg; [|exact Hi0].
    now apply Qc_div_nonneg.
  - intros E. rewrite E in Hm0. revert Hm0. qc2q. lra.
Qed.

Lemma equal_nonneg (i : Qc) (inc : prim) (cs : list Category.t) :
  Number inc = Fin i -> 0 <= i -> cs <> [] ->
  geb (equal inc cs) zero = true.
Proof.
  intros Hi Hi0 Hne. unfold equal, of_nat, of_Z. rewrite Hi. cbn [div].
  assert (Hn : 0 < Q2Qc (inject_Z (Z.of_nat (List.length cs)))).
  { qc2q. change 0%Q with (inject_Z 0). rewrite <- Zlt_Qlt.
    destruct cs; [contradiction|]. cbn [List.length]. lia. }
  rewrite Qc_eq_bool_false.
  - apply floor_nonneg. now apply Qc_div_nonneg.
  - intros E. rewrite E in Hn. revert Hn. qc2q. lra.
Qed.

Lemma finite_nonneg_finite (x : number) :
  finite_nonneg x = true -> is_finite x = true.
Proof. unfold finite_nonneg. intros H. now apply andb_prop in H. Qed.

Lemma distribute_nonneg (st : State) :
  admissible Distribute st -> nonneg_balances (distributeIncome st).
Proof.
  intros [Hinc Hps]. unfold nonneg_balances.
  apply finite_nonneg_spec in Hinc. destruct Hinc as (i & Hi & Hi0).
  destruct (categories st) as [|c0 cs0] eqn:E.
  - rewrite distribute_empty by exact E. rewrite E. constructor.
  - assert (Hne : categories st <> []) by (rewrite E; discriminate).
    rewrite distribute_cases by exact Hne. rewrite <- E in *.
    assert (Hfin : Forall (fun c =>
               is_finite (Number_or_0 (Category.percent c)) = true)
              (categories st)).
    { eapply Forall_impl; [|exact Hps].
      intros c. apply finite_nonneg_finite. }
    destruct (finite_values _ _ _ Hfin) as (qs & Hqs).
    rewrite (totalPercent_fin _ _ Hqs).
    destruct (eqb _ zero); apply Forall_forall; intros c' Hin;
      apply in_map_iff in Hin; destruct Hin as (c & <- & Hin);
      cbn [Category.with_balance Category.balance].
    + now apply (equal_nonneg i).
    + apply (allocated_nonneg _ i); auto.
      rewrite Forall_forall in Hps. now apply Hps.
Qed.

(** ** Transactions *)

Lemma abs_finite (x : number) :
  is_finite x = true -> is_finite (Math_abs x) = true.
Proof. destruct x; auto. Qed.

Lemma signed_finite (a : TxArgs.t) :
  is_finite (Number_or_0 (TxArgs.amount a)) = true ->
  is_finite (signed a) = true.
Proof.
  intros H. unfold signed. apply abs_finite in H.
  destruct (strict_eq _ _); [|exact H].
  destruct (Math_abs _); auto.
Qed.

(** [Math.max(0, x)] is [>= 0] unless [x] is [NaN]. *)
Lemma max_zero_nonneg (x : number) :
  x <> NaN -> geb (Math_max zero x) zero = true.
Proof.
  intros Hx. destruct x as [| | |q]; try reflexivity; [contradiction|].
  unfold Math_max, zero. cbn [compare].
  destruct (0 ?= q) eqn:E; try reflexivity.
  apply compare_Lt in E. apply geb_fin. now apply Qclt_le_weak.
Qed.

(** A balance [>= 0] plus a finite amount is a number. *)
Lemma add_finite_not_NaN (b s : number) :
  geb b zero = true -> is_finite s = true -> add b s <> NaN.
Proof.
  intros Hb Hs. destruct s as [| | |q]; try discriminate Hs.
  destruct b; try discriminate Hb; discriminate.
Qed.

Lemma addTransaction_nonneg (txid now : string) (a : TxArgs.t) (st : State) :
  admissible (AddTransaction txid now a) st ->
  nonneg_balances st ->
  nonneg_balances (addTransaction txid now a st).
Proof.
  cbn [admissible]. intros Hfin Hinv. apply signed_finite in Hfin.
  unfold nonneg_balances, addTransaction in *.
  destruct (truthy _); [|exact Hinv].
  cbn [setCategories setTransactions categories].
  apply Forall_forall. intros c' Hin. apply in_map_iff in Hin.
  destruct Hin as (c & <- & Hin).
  rewrite Forall_forall in Hinv. specialize (Hinv c Hin).
  destruct (strict_eq _ _); [|exact Hinv].
  cbn [Category.with_balance Category.balance].
  apply max_zero_nonneg. now apply add_finite_not_NaN.
Qed.

(** ** Goal transfers *)

(** What is left after a transfer of [min(B, t)] out of [B > 0]. *)
Lemma sub_min_nonneg (B t : number) :
  gtb B zero = true -> is_finite t = true ->
  geb (sub B (Math_min B t)) zero = true.
Proof.
  intros HB Ht. destruct t as [| | |q]; try discriminate Ht.
  destruct B as [| | |b]; try discriminate HB; [reflexivity|].
  unfold Math_min. cbn [compare].
  destruct (b ?= q) eqn:E; cbn [sub neg add]; apply geb_fin.
  - qc2q. lra.
  - qc2q. lra.
  - apply compare_Gt in E. qc2q. lra.
Qed.

Lemma createGoal_nonneg (gid : string) (a : GoalArgs.t) (st : State) :
  admissible (CreateGoal gid a) st ->
  nonneg_balances st ->
  nonneg_balances (createGoal gid a st).
Proof.
  cbn [admissible]. intros [Hfin Hnd] Hinv.
  unfold nonneg_balances, createGoal in *.
  destruct (truthy _); [|exact Hinv].
  destruct (find _ (categories st)) as [c|] eqn:F; [|exact Hinv].
  destruct (gtb (Category.balance c) zero) eqn:HB; [|exact Hinv].
  cbn [setCategories setGoals categories new_goal Goal.targetAmount].
  apply find_some in F. destruct F as [Hc Hid].
  apply strict_eq_PStr in Hid.
  apply Forall_forall. intros c' Hin. apply in_map_iff in Hin.
  destruct Hin as (cc & <- & Hin).
  rewrite Forall_forall in Hinv.
  destruct (strict_eq _ _) eqn:E; [|now apply Hinv].
  rewrite Hid in E. apply strict_eq_PStr in E. injection E as E.
  assert (cc = c) by (apply (unique_by_id (categories st)); auto).
  subst cc. cbn [Category.with_balance Category.balance].
  now apply sub_min_nonneg.
Qed.
End InvariantFacts.

Import InvariantFacts.

(** C2, as amended.  Starting from a state in which every balance is
    [>= 0], the state after an operation again has every balance
    [>= 0], when: for [addTransaction], the amount coerces to a finite
    number (of any sign, any type); for [createGoal], the target
    coerces to a finite number (of any sign) and the category ids are
    unique; for [distributeIncome], the income is a finite number
    [>= 0] and every percent coerces to a finite number [>= 0]. *)
Theorem balances_stay_nonneg (op : operation) (st : State) :
  admissible op st ->
  nonneg_balances st ->
  nonneg_balances (run op st).
Proof.
  destruct op as [|txid now a|gid a]; cbn [run]; intros Hadm Hinv.
  - now apply distribute_nonneg.
  - now apply addTransaction_nonneg.
  - now apply createGoal_nonneg.
Qed.

Lemma balances_stay_nonneg_witness :
  nonneg_balances (run Distribute Scenario.start)
  /\ nonneg_balances
       (run (AddTransaction "tx1" "d" rent) Scenario.after_distribute)
  /\ nonneg_balances (run (CreateGoal "g1" deposit_target) funded_state).
Proof.
  split; [|split].
  - apply (balances_stay_nonneg Distribute Scenario.start).
    + split; [reflexivity|]. repeat constructor.
    + repeat constructor.
  - apply (balances_stay_nonneg (AddTransaction "tx1" "d" rent)
             Scenario.after_distribute).
    + reflexivity.
    + repeat constructor.
  - apply (balances_stay_nonneg (CreateGoal "g1" deposit_target)
             funded_state).
    + split; [reflexivity|].
      repeat constructor; cbn; intuition discriminate.
    + repeat constructor.
Defined.

(** C2 as stated fails for [distributeIncome]: with an income of
    [-100] and one category at 100 percent, every balance is [>= 0]
    before the distribution and the category holds [-100] after it. *)
Lemma balances_stay_nonneg_counterexample :
  nonneg_balances overdrawn_income_state
  /\ map Category.balance
         (categories (run Distribute overdrawn_income_state))
     = [of_Z (-100)]
  /\ ~ nonneg_balances (run Distribute overdrawn_income_state).
Proof.
  split; [repeat constructor|]. split; [num_compute|].
  intros H. inversion H as [|c cs Hc _ E]. discriminate Hc.
Qed.

(* ================================================================== *)
(** * Snapshot: round trip and failure *)
(* ================================================================== *)

Module SnapshotFacts.
Import Snapshot.
Local Open Scope string_scope.

(** Induction over values, through arrays and objects. *)
Lemma value_induction (P : value -> Prop) :
  (forall p, P (VPrim p)) ->
  (forall items, Forall P items -> P (VArr items)) ->
  (forall props, Forall (fun kv => P (snd kv)) props -> P (VObj props)) ->
  forall v, P v.
Proof.
  intros HP HA HO.
  fix IH 1. intros [p|items|props].
  - apply HP.
  - apply HA. induction items as [|x r IHr]; constructor; [apply IH|exact IHr].
  - apply HO. induction props as [|[k x] r IHr]; constructor;
      [apply IH|exact IHr].
Qed.

(** A value written without loss is written as it is. *)
Lemma written_safe (v : value) : json_safe v = true -> written v = v.
Proof.
  induction v as [p|items IH|props IH] using value_induction.
  - destruct p as [| |b|n|s]; cbn; try reflexivity; try discriminate.
    intros ->. reflexivity.
  - cbn [json_safe written]. intros H. f_equal.
    induction IH as [|x r Hx _ IHr]; [reflexivity|].
    cbn [forallb] in H. apply andb_prop in H. destruct H as [H1 H2].
    cbn [map]. now rewrite (Hx H1), (IHr H2).
  - cbn [json_safe written]. intros H. f_equal.
    induction IH as [|[k x] r Hx _ IHr]; [reflexivity|].
    apply andb_prop in H. destruct H as [H H3].
    apply andb_prop in H. destruct H as [H _].
    apply andb_prop in H. destruct H as [H1 _].
    cbn [snd] in Hx. rewrite (IHr H3), (Hx H1).
    destruct x as [[| |b|n|s]|items|props]; try reflexivity.
    discriminate H1.
Qed.

(** The codec on document trees obeys the law. *)
Lemma TreeJSON_laws : JSONLaws TreeJSON.
Proof.
  intros v Hv. cbn [JSON_parse JSON_stringify TreeJSON].
  now rewrite (written_safe v Hv).
Qed.

(** ** The snapshot of a valid state is written without loss *)

Lemma categories_safe (cs : list Category.t) :
  forallb valid_category cs = true ->
  forallb json_safe (map of_category cs) = true.
Proof.
  induction cs as [|c cs IH]; [reflexivity|].
  cbn [forallb map]. intros H. apply andb_prop in H. destruct H as [Hc H].
  rewrite (IH H), andb_true_r.
  unfold valid_category in Hc.
  apply andb_prop in Hc. destruct Hc as [Hc Hb].
  apply andb_prop in Hc. destruct Hc as [Hn Hp].
  cbn. now rewrite Hn, Hp, Hb.
Qed.

Lemma transactions_safe (ts : list Transaction.t) :
  forallb valid_transaction ts = true ->
  forallb json_safe (map of_transaction ts) = true.
Proof.
  induction ts as [|t ts IH]; [reflexivity|].
  cbn [forallb map]. intros H. apply andb_prop in H. destruct H as [Ht H].
  rewrite (IH H), andb_true_r.
  unfold valid_transaction in Ht.
  apply andb_prop in Ht. destruct Ht as [Ht Hc].
  apply andb_prop in Ht. destruct Ht as [Hn Ha].
  cbn. now rewrite Hn, Ha, Hc.
Qed.

Lemma goals_safe (gs : list Goal.t) :
  forallb valid_goal gs = true ->
  forallb json_safe (map of_goal gs) = true.
Proof.
  induction gs as [|g gs IH]; [reflexivity|].
  cbn [forallb map]. intros H. apply andb_prop in H. destruct H as [Hg H].
  rewrite (IH H), andb_true_r.
  unfold valid_goal in Hg.
  apply andb_prop in Hg. destruct Hg as [Hg Hs].
  apply andb_prop in Hg. destruct Hg as [Hn Ht].
  cbn. now rewrite Hn, Ht, Hs.
Qed.

Lemma valid_income_safe (v : prim) :
  valid_income v = true -> prim_safe v = true.
Proof. destruct v; cbn; auto. Qed.

Lemma valid_income_kept (v : prim) (d : value) :
  valid_income v = true -> nullish (VPrim v) d = VPrim v.
Proof. destruct v; cbn; auto; discriminate. Qed.

Lemma payload_safe (st : State) :
  valid_state st = true -> json_safe (payload (of_state st)) = true.
Proof.
  unfold valid_state. intros H.
  apply andb_prop in H. destruct H as [H Hg].
  apply andb_prop in H. destruct H as [H Ht].
  apply andb_prop in H. destruct H as [Hi Hc].
  cbn [payload of_state Raw.income Raw.categories Raw.transactions
       Raw.goals json_safe fresh_key].
  rewrite (valid_income_safe _ Hi), (categories_safe _ Hc),
    (transactions_safe _ Ht), (goals_safe _ Hg).
  reflexivity.
Qed.

Section Handler.
Context {J : JSON}.

(** What [importData] does with a document that parses to an
    object: each field is taken from it, or kept when the
    document has [null] or nothing there. *)
Lemma importData_object (cur : Raw.state) (doc : text)
      (props : list (string * value)) :
  JSON_parse doc = Ok (VObj props) ->
  importData cur doc
  = ({| Raw.income := nullish (lookup "income" props) (Raw.income cur);
        Raw.categories :=
          nullish (lookup "categories" props) (Raw.categories cur);
        Raw.transactions :=
          nullish (lookup "transactions" props) (Raw.transactions cur);
        Raw.goals := nullish (lookup "goals" props) (Raw.goals cur) |},
     None).
Proof.
  intros H. unfold importData, import_body, bind, lift, update.
  rewrite H. reflexivity.
Qed.

(** A document that does not parse: the handler alerts and no
    setter has run. *)
Lemma importData_throw (cur : Raw.state) (doc : text) (e : error) :
  JSON_parse doc = Throw e ->
  importData cur doc = (cur, Some "Invalid file").
Proof.
  intros H. unfold importData, import_body, bind, lift.
  rewrite H. reflexivity.
Qed.

(** A document that parses to an array, a string, a number or a
    boolean has none of the four fields: every setter stores the
    value in memory again and nothing is alerted. *)
Lemma importData_no_field (cur : Raw.state) (doc : text) (v : value) :
  JSON_parse doc = Ok v ->
  match v with
  | VArr _ | VPrim (PBool _) | VPrim (PNum _) | VPrim (PStr _) => True
  | _ => False
  end ->
  importData cur doc = (cur, None).
Proof.
  intros H Hv. unfold importData, import_body, bind, lift, update.
  rewrite H. destruct cur.
  destruct v as [[| |b|n|s]|items|props]; try contradiction; reflexivity.
Qed.

(** The document [null] parses, and reading [parsed.income] throws
    before any setter runs. *)
Lemma importData_null (cur : Raw.state) (doc : text) :
  JSON_parse doc = Ok null ->
  importData cur doc = (cur, Some "Invalid file").
Proof.
  intros H. unfold importData, import_body, bind, lift.
  rewrite H. reflexivity.
Qed.
End Handler.
End SnapshotFacts.

Import Snapshot SnapshotFacts.

(** The handler alone: for a valid state (finite numbers, no
    [undefined] field, an income that is not [null]) and a JSON codec
    that reads back what it writes, the setters of [importData]
    receive the four fields of the exported state, whatever the state
    in memory was, and nothing is alerted. *)
Lemma handler_round_trip
  (J : JSON) (L : JSONLaws J) (st : State) (cur : Raw.state) :
  valid_state st = true ->
  importData cur (exportData (of_state st)) = (of_state st, None).
Proof.
  intros Hv. unfold exportData.
  rewrite (importData_object cur _ _ (L _ (payload_safe st Hv))).
  unfold valid_state in Hv.
  apply andb_prop in Hv. destruct Hv as [Hv _].
  apply andb_prop in Hv. destruct Hv as [Hv _].
  apply andb_prop in Hv. destruct Hv as [Hi _].
  change (lookup "income" _) with (VPrim (income st)).
  rewrite (valid_income_kept _ _ Hi). reflexivity.
Qed.

(** C8.  When the document does not parse, [importData] alerts
    "Invalid file" and leaves income, categories, transactions and
    goals as they were. *)
Theorem import_parse_failure
  (J : JSON) (cur : Raw.state) (doc : text) (e : error) :
  JSON_parse doc = Throw e ->
  importData cur doc = (cur, Some "Invalid file"%string).
Proof. apply importData_throw. Qed.

Lemma import_parse_failure_witness :
  importData (J := TreeJSON) (of_state Scenario.start) Malformed
  = (of_state Scenario.start, Some "Invalid file"%string).
Proof.
  apply (import_parse_failure TreeJSON (of_state Scenario.start) Malformed
           SyntaxError).
  reflexivity.
Defined.

(* ================================================================== *)
(** * More on the allocation *)
(* ================================================================== *)

Import Crud Display Actions.

Module AllocationFacts.
Local Open Scope Qc_scope.

Lemma add_zero_r (x : number) : add x zero = x.
Proof. destruct x; cbn; try reflexivity. f_equal. ring. Qed.

Lemma div_one (x : number) : div x one = x.
Proof.
  destruct x as [| | |a]; try reflexivity.
  unfold one. cbn [div].
  rewrite Qc_eq_bool_false by (intros E; discriminate E).
  f_equal. field. intros E; discriminate E.
Qed.

Lemma Math_max_lt (x y : number) : ltb x y = true -> Math_max x y = y.
Proof.
  unfold ltb, Math_max. destruct (compare x y) as [[ | | ]|];
    intros H; try discriminate; reflexivity.
Qed.

Lemma of_Z_0 : of_Z 0 = zero.
Proof. num_compute. Qed.

(** [distributeIncome] replaces the categories and nothing else. *)
Lemma distribute_setCategories (st : State) :
  distributeIncome st = setCategories st (categories (distributeIncome st)).
Proof.
  unfold distributeIncome. destruct st as [inc [|c cs] ts gs]; reflexivity.
Qed.

Lemma totalPercent_shape (cs cs' : list Category.t) :
  map shape cs = map shape cs' -> totalPercent cs = totalPercent cs'.
Proof.
  intros H. unfold totalPercent.
  rewrite !(fold_add_map _ (fun c => Number_or_0 (Category.percent c))).
  f_equal.
  pose (g := fun sh : string * prim * prim => Number_or_0 (snd sh)).
  change (map (fun c => g (shape c)) cs = map (fun c => g (shape c)) cs').
  rewrite <- !(map_map shape g). now rewrite H.
Qed.

Lemma length_shape (cs cs' : list Category.t) :
  map shape cs = map shape cs' -> List.length cs = List.length cs'.
Proof.
  intros H. rewrite <- (length_map shape cs), H. apply length_map.
Qed.

Lemma with_balance_shape (c c' : Category.t) (b : number) :
  shape c = shape c' ->
  Category.with_balance c b = Category.with_balance c' b.
Proof.
  unfold shape, Category.with_balance. intros H. injection H as -> -> ->.
  reflexivity.
Qed.

Lemma rebalance_shape (f : Category.t -> number) (cs cs' : list Category.t) :
  (forall c c', shape c = shape c' -> f c = f c') ->
  map shape cs = map shape cs' ->
  map (fun c => Category.with_balance c (f c)) cs
  = map (fun c => Category.with_balance c (f c)) cs'.
Proof.
  intros Hf. revert cs'.
  induction cs as [|c cs IH]; intros [|c' cs'] H; try discriminate H.
  - reflexivity.
  - cbn [map] in *.
    assert (Hc : shape c = shape c') by congruence.
    assert (Ht : map shape cs = map shape cs') by congruence.
    rewrite (with_balance_shape c c' _ Hc), (Hf c c' Hc), (IH cs' Ht).
    reflexivity.
Qed.

(** The categories after a distribution are read off the income and
    the ids, names and percents alone. *)
Lemma distribute_by_shape (st st' : State) :
  income st = income st' ->
  map shape (categories st) = map shape (categories st') ->
  categories (distributeIncome st) = categories (distributeIncome st').
Proof.
  intros Hi Hs.
  destruct (categories st) as [|c cs] eqn:E;
    destruct (categories st') as [|c' cs'] eqn:E'; try discriminate Hs.
  - rewrite !distribute_empty by assumption. now rewrite E, E'.
  - rewrite <- E, <- E' in Hs.
    rewrite !distribute_cases by (rewrite ?E, ?E'; discriminate).
    rewrite <- (totalPercent_shape _ _ Hs), <- Hi.
    destruct (eqb _ zero).
    + unfold equal. rewrite <- (length_shape _ _ Hs).
      now apply (rebalance_shape (fun _ => _)).
    + apply rebalance_shape; [|exact Hs].
      intros x x' Hx. unfold allocated, shape in *.
      injection Hx as _ _ ->. reflexivity.
Qed.

Lemma shape_with_balance (f : Category.t -> number) (cs : list Category.t) :
  map shape (map (fun c => Category.with_balance c (f c)) cs) = map shape cs.
Proof. rewrite map_map. apply map_ext. reflexivity. Qed.

Lemma shape_map_if (test : Category.t -> bool) (f : Category.t -> number)
      (cs : list Category.t) :
  map shape
      (map (fun c => if test c then Category.with_balance c (f c) else c) cs)
  = map shape cs.
Proof.
  rewrite map_map. apply map_ext. intros c. now destruct (test c).
Qed.

(** No engine operation changes the income, or the id, name or percent
    of a category, or the number or order of the categories. *)
Lemma run_shape (op : operation) (st : State) :
  income (run op st) = income st
  /\ map shape (categories (run op st)) = map shape (categories st).
Proof.
  destruct op as [|txid now a|gid a]; cbn [run].
  - split.
    + rewrite distribute_setCategories. reflexivity.
    + destruct (categories st) as [|c cs] eqn:E.
      * rewrite distribute_empty by exact E. now rewrite E.
      * rewrite distribute_cases by (rewrite E; discriminate).
        rewrite <- E. destruct (eqb _ zero); apply shape_with_balance.
  - unfold addTransaction. destruct (truthy _); [|split; reflexivity].
    cbn [setCategories setTransactions income categories].
    split; [reflexivity|]. apply shape_map_if.
  - unfold createGoal. destruct (truthy _); [|split; reflexivity].
    destruct (find _ _); [|split; reflexivity].
    destruct (gtb _ zero); [|split; reflexivity].
    cbn [setCategories setGoals income categories].
    split; [reflexivity|]. apply shape_map_if.
Qed.
End AllocationFacts.

Import AllocationFacts.

(** X1.  A distribution forgets the balances it finds: distributing
    after any engine operation gives the categories that distributing
    before it gives, and distributing twice is distributing once. *)
Theorem distribute_forgets_balances (op : operation) (st : State) :
  categories (distributeIncome (run op st)) = categories (distributeIncome st)
  /\ distributeIncome (distributeIncome st) = distributeIncome st.
Proof.
  split.
  - destruct (run_shape op st) as [Hi Hs]. now apply distribute_by_shape.
  - rewrite (distribute_setCategories (distributeIncome st)).
    destruct (run_shape Distribute st) as [Hi Hs]. cbn [run] in Hi, Hs.
    rewrite (distribute_by_shape _ _ Hi Hs).
    rewrite (distribute_setCategories st) at 3.
    rewrite (distribute_setCategories st) at 1. reflexivity.
Qed.

(** X2.  No engine operation changes the income, the ids, names and
    percents of the categories, their number or their order, hence
    the total percent; a distribution leaves the log and the goals, a
    transaction leaves the goals and adds one entry to the log, a
    goal leaves the log and adds one goal. *)
Theorem engine_frame (op : operation) (st : State) :
  income (run op st) = income st
  /\ map shape (categories (run op st)) = map shape (categories st)
  /\ totalPercent (categories (run op st)) = totalPercent (categories st)
  /\ match op with
     | Distribute =>
         transactions (run op st) = transactions st
         /\ goals (run op st) = goals st
     | AddTransaction _ _ _ =>
         List.length (transactions (run op st))
         = S (List.length (transactions st))
         /\ goals (run op st) = goals st
     | CreateGoal _ _ =>
         transactions (run op st) = transactions st
         /\ List.length (goals (run op st)) = S (List.length (goals st))
     end.
Proof.
  destruct (run_shape op st) as [Hi Hs].
  split; [exact Hi|]. split; [exact Hs|].
  split; [now apply totalPercent_shape|].
  destruct op as [|txid now a|gid a]; cbn [run].
  - rewrite distribute_setCategories. split; reflexivity.
  - rewrite addTransaction_log. cbn [List.length].
    split; [reflexivity|].
    unfold addTransaction. destruct (truthy _); reflexivity.
  - unfold createGoal.
    destruct (truthy _);
      [|cbn; rewrite length_app, Nat.add_1_r; split; reflexivity].
    destruct (find _ _);
      [|cbn; rewrite length_app, Nat.add_1_r; split; reflexivity].
    destruct (gtb _ zero);
      [|cbn; rewrite length_app, Nat.add_1_r; split; reflexivity].
    cbn [setCategories setGoals transactions goals].
    rewrite length_map, length_app, Nat.add_1_r. split; reflexivity.
Qed.

(** X3.  When the percents sum to a total below one that is not zero
    (negative totals included), nothing is normalised: every category
    gets [round(percent * I)]. *)
Theorem distribute_below_one (st : State) :
  let T := totalPercent (categories st) in
  ltb T one = true ->
  eqb T zero = false ->
  map Category.balance (categories (distributeIncome st))
  = map (fun c =>
           Math_round (mul (Number_or_0 (Category.percent c))
                           (Number (income st))))
        (categories st).
Proof.
  intros T Hlt Hz.
  assert (Hne : categories st <> []).
  { intros E. subst T. rewrite E in Hz. discriminate Hz. }
  rewrite distribute_cases by exact Hne. fold T. rewrite Hz.
  rewrite map_balance_with_balance. apply map_ext. intros c.
  unfold allocated. now rewrite (Math_max_lt _ _ Hlt), div_one.
Qed.

Lemma distribute_below_one_witness :
  map Category.balance (categories (distributeIncome half_state))
  = map (fun c =>
           Math_round (mul (Number_or_0 (Category.percent c))
                           (Number (income half_state))))
        (categories half_state).
Proof.
  apply (distribute_below_one half_state); reflexivity.
Defined.

Module ShareFacts.
Local Open Scope Qc_scope.

(** [Math.max(tp, 1)] divides zero to zero, unless [tp] is [NaN]. *)
Lemma zero_over_max (tp : number) :
  tp <> NaN -> div zero (Math_max tp one) = zero.
Proof.
  intros Hn. destruct tp as [| | |t]; try reflexivity; [contradiction|].
  destruct (max_one_positive t) as (m & Hm & Hm0). rewrite Hm.
  unfold zero. cbn [div].
  rewrite Qc_eq_bool_false.
  - f_equal. field. intros E. rewrite E in Hm0.
    revert Hm0. qc2q. lra.
  - intros E. rewrite E in Hm0. revert Hm0. qc2q. lra.
Qed.

Lemma allocated_zero (tp : number) (inc : prim) (c : Category.t) :
  tp <> NaN ->
  is_finite (Number inc) = true ->
  Number_or_0 (Category.percent c) = zero ->
  allocated tp inc c = zero.
Proof.
  intros Hn Hi Hp. unfold allocated. rewrite Hp, (zero_over_max tp Hn).
  destruct (Number inc) as [| | |i]; try discriminate Hi.
  unfold zero. cbn [mul].
  replace (0 * i) with 0 by ring. num_compute.
Qed.

Lemma allocated_whole (t i p : Qc) (inc : prim) (c : Category.t) :
  Number inc = Fin i ->
  Number_or_0 (Category.percent c) = Fin p ->
  whole (allocated (Fin t) inc c).
Proof.
  intros Hi Hp. unfold allocated. rewrite Hi, Hp.
  destruct (max_one_positive t) as (m & Hm & Hm0). rewrite Hm.
  cbn [div]. rewrite Qc_eq_bool_false.
  - cbn [mul Math_round]. eexists. reflexivity.
  - intros E. rewrite E in Hm0. revert Hm0. qc2q. lra.
Qed.

Lemma equal_whole (i : Qc) (inc : prim) (cs : list Category.t) :
  Number inc = Fin i -> cs <> [] -> whole (equal inc cs).
Proof.
  intros Hi Hne. unfold equal, of_nat, of_Z. rewrite Hi. cbn [div].
  rewrite Qc_eq_bool_false.
  - cbn [Math_floor]. eexists. reflexivity.
  - intros E. apply (f_equal this) in E.
    assert (H : (this (Q2Qc (inject_Z (Z.of_nat (List.length cs))))
                 == inject_Z (Z.of_nat (List.length cs)))%Q)
      by apply this_Q2Qc.
    rewrite E in H. cbn in H. unfold Qeq in H. cbn in H.
    destruct cs; [contradiction|]. cbn [List.length] in H. lia.
Qed.
End ShareFacts.

Import ShareFacts.

(** X4.  When some percent is allocated (the total is neither [0] nor
    [NaN]) and the income is finite, a category whose percent is [0]
    or not numeric is given a balance of [0]. *)
Theorem distribute_zero_weight (st : State) (c : Category.t) :
  let T := totalPercent (categories st) in
  In c (categories st) ->
  Number_or_0 (Category.percent c) = zero ->
  eqb T zero = false ->
  T <> NaN ->
  is_finite (Number (income st)) = true ->
  In (Category.with_balance c zero) (categories (distributeIncome st)).
Proof.
  intros T Hin Hp Hz Hn Hi.
  assert (Hne : categories st <> []) by (intros E; rewrite E in Hin; exact Hin).
  rewrite distribute_cases by exact Hne. fold T. rewrite Hz.
  rewrite <- (allocated_zero T (income st) c Hn Hi Hp).
  now apply (in_map (fun c => Category.with_balance c
                                 (allocated T (income st) c))).
Qed.

Lemma distribute_zero_weight_witness :
  In (Category.with_balance (new_category "c3" (PStr "Gifts")) zero)
     (categories
        (distributeIncome
           (addCategory "c3" (PStr "Gifts") Scenario.start))).
Proof.
  apply (distribute_zero_weight
           (addCategory "c3" (PStr "Gifts") Scenario.start)
           (new_category "c3" (PStr "Gifts"))).
  - right. right. right. left. reflexivity.
  - reflexivity.
  - reflexivity.
  - discriminate.
  - reflexivity.
Defined.

(** X5.  With a finite income and percents that coerce to finite
    numbers, no balance after a distribution is fractional or [NaN]:
    each is a whole number of units, or an infinity where the
    arithmetic overflows. *)
Theorem distribute_whole_units (st : State) :
  is_finite (Number (income st)) = true ->
  Forall (fun c => is_finite (Number_or_0 (Category.percent c)) = true)
         (categories st) ->
  Forall (fun c =>
            whole (Category.balance c)
            \/ Category.balance c = PosInf
            \/ Category.balance c = NegInf)
         (categories (distributeIncome st)).
Proof.
  intros Hinc Hfin.
  destruct (Number (income st)) as [| | |i] eqn:Hi; try discriminate Hinc.
  destruct (categories st) as [|c0 cs0] eqn:E.
  - rewrite distribute_empty by exact E. rewrite E. constructor.
  - assert (Hne : categories st <> []) by (rewrite E; discriminate).
    rewrite distribute_cases by exact Hne. rewrite <- E in *.
    destruct (finite_values _ _ _ Hfin) as (qs & Hqs).
    rewrite (totalPercent_fin _ _ Hqs).
    rewrite Forall_forall in Hfin.
    destruct (eqb _ zero); apply Forall_forall; intros c' Hin;
      apply in_map_iff in Hin; destruct Hin as (c & <- & Hin);
      cbn [Category.with_balance Category.balance]; left.
    + now apply (equal_whole i).
    + specialize (Hfin c Hin).
      destruct (Number_or_0 (Category.percent c)) as [| | |p] eqn:Hp;
        try discriminate Hfin.
      now apply (allocated_whole _ i p).
Qed.

Lemma distribute_whole_units_witness :
  Forall (fun c =>
            whole (Category.balance c)
            \/ Category.balance c = PosInf
            \/ Category.balance c = NegInf)
         (categories (distributeIncome half_state)).
Proof.
  apply (distribute_whole_units half_state).
  - reflexivity.
  - repeat constructor.
Defined.

(* ================================================================== *)
(** * More on the ledger *)
(* ================================================================== *)

Module LedgerMore.
Local Open Scope Qc_scope.

Lemma map_if_false (A : Type) (test : A -> bool) (f : A -> A) (l : list A) :
  (forall x, In x l -> test x = false) ->
  map (fun x => if test x then f x else x) l = l.
Proof.
  intros H. rewrite <- (map_id l) at 2. apply map_ext_in.
  intros x Hx. now rewrite (H x Hx).
Qed.

Lemma Forall2_map_same (A : Type) (R : A -> A -> Prop) (f : A -> A)
      (l : list A) :
  (forall x, In x l -> R x (f x)) -> Forall2 R l (map f l).
Proof.
  induction l as [|x l IH]; intros H; cbn; constructor.
  - apply H. now left.
  - apply IH. intros y Hy. apply H. now right.
Qed.

(** The signed amount of an expense is finite and [<= 0], that of an
    income finite and [>= 0]. *)
Lemma signed_sign (a : TxArgs.t) :
  is_finite (Number_or_0 (TxArgs.amount a)) = true ->
  exists s, signed a = Fin s
  /\ (strict_eq (type_or_default (TxArgs.type a)) (PStr "expense") = true ->
      s <= 0)
  /\ (strict_eq (type_or_default (TxArgs.type a)) (PStr "expense") = false ->
      0 <= s).
Proof.
  intros H. unfold signed.
  destruct (Number_or_0 (TxArgs.amount a)) as [| | |q]; try discriminate H.
  pose proof (Qcabs_nonneg q) as Hq.
  destruct (strict_eq _ _); cbn [Math_abs neg]; eexists;
    (split; [reflexivity|]); split; intros E; try discriminate E.
  - revert Hq. qc2q. lra.
  - exact Hq.
Qed.

Lemma leb_refl (x : number) : x <> NaN -> leb x x = true.
Proof.
  intros H. destruct x as [| | |q]; try reflexivity; [contradiction|].
  apply leb_fin, Qcle_refl.
Qed.

Lemma geb_refl (x : number) : x <> NaN -> geb x x = true.
Proof.
  intros H. destruct x as [| | |q]; try reflexivity; [contradiction|].
  apply geb_fin, Qcle_refl.
Qed.

Lemma nonneg_not_NaN (x : number) : geb x zero = true -> x <> NaN.
Proof. intros H E. subst. discriminate H. Qed.

(** A balance [>= 0] clamped after a debit does not grow. *)
Lemma debit_le (b : number) (s : Qc) :
  geb b zero = true -> s <= 0 ->
  leb (Math_max zero (add b (Fin s))) b = true.
Proof.
  intros Hb Hs. apply geb_zero in Hb. destruct Hb as [->|(q & -> & Hq)].
  - reflexivity.
  - cbn [add]. unfold Math_max, zero. cbn [compare].
    destruct (0 ?= q + s) eqn:E; apply leb_fin.
    + exact Hq.
    + qc2q. lra.
    + exact Hq.
Qed.

(** A balance [>= 0] clamped after a credit does not shrink. *)
Lemma credit_ge (b : number) (s : Qc) :
  geb b zero = true -> 0 <= s ->
  geb (Math_max zero (add b (Fin s))) b = true.
Proof.
  intros Hb Hs. apply geb_zero in Hb. destruct Hb as [->|(q & -> & Hq)].
  - reflexivity.
  - cbn [add]. unfold Math_max, zero. cbn [compare].
    destruct (0 ?= q + s) eqn:E; apply geb_fin.
    + apply (proj1 (compare_Eq _ _)) in E.
      assert (H : (this (q + s) == 0)%Q) by (rewrite <- E; reflexivity).
      rewrite this_plus in H. qc2q. lra.
    + qc2q. lra.
    + apply (proj1 (compare_Gt _ _)) in E. revert E. qc2q. lra.
Qed.
End LedgerMore.

Import LedgerMore.

(** X6.  A transaction whose category reference is empty, [null],
    left out, or the id of no category is still put in front of the
    log, and changes no category. *)
Theorem addTransaction_unresolved
  (txid now : string) (a : TxArgs.t) (st : State) :
  truthy (TxArgs.categoryId a) = false
  \/ (forall c, In c (categories st) ->
                strict_eq (PStr (Category.id c)) (TxArgs.categoryId a)
                = false) ->
  categories (addTransaction txid now a st) = categories st
  /\ exists tx,
       transactions (addTransaction txid now a st) = tx :: transactions st
       /\ Transaction.id tx = txid
       /\ Transaction.categoryId tx = TxArgs.categoryId a.
Proof.
  intros H. split.
  - unfold addTransaction. destruct H as [H|H].
    + rewrite H. reflexivity.
    + destruct (truthy _); [|reflexivity].
      cbn [setCategories setTransactions categories].
      now apply map_if_false.
  - eexists. split; [apply addTransaction_log|]. split; reflexivity.
Qed.

Lemma addTransaction_unresolved_witness :
  categories
    (addTransaction "tx1" "d"
       {| TxArgs.title := PStr "Lunch"; TxArgs.amount := PStr "12";
          TxArgs.categoryId := PNull; TxArgs.type := PStr "expense" |}
       Scenario.after_distribute)
  = categories Scenario.after_distribute
  /\ exists tx,
       transactions
         (addTransaction "tx1" "d"
            {| TxArgs.title := PStr "Lunch"; TxArgs.amount := PStr "12";
               TxArgs.categoryId := PNull; TxArgs.type := PStr "expense" |}
            Scenario.after_distribute)
       = tx :: transactions Scenario.after_distribute
       /\ Transaction.id tx = "tx1"%string
       /\ Transaction.categoryId tx = PNull.
Proof.
  apply (addTransaction_unresolved "tx1" "d"
           {| TxArgs.title := PStr "Lunch"; TxArgs.amount := PStr "12";
              TxArgs.categoryId := PNull; TxArgs.type := PStr "expense" |}
           Scenario.after_distribute).
  left. reflexivity.
Defined.

(** X7.  Starting from balances [>= 0], with an amount that coerces to
    a finite number: an expense raises no balance and an income
    lowers none. *)
Theorem addTransaction_monotone
  (txid now : string) (a : TxArgs.t) (st : State) :
  nonneg_balances st ->
  is_finite (Number_or_0 (TxArgs.amount a)) = true ->
  let expense :=
    strict_eq (type_or_default (TxArgs.type a)) (PStr "expense") in
  Forall2 (fun c c' =>
             if expense
             then leb (Category.balance c') (Category.balance c) = true
             else geb (Category.balance c') (Category.balance c) = true)
          (categories st) (categories (addTransaction txid now a st)).
Proof.
  intros Hinv Hfin expense.
  destruct (signed_sign a Hfin) as (s & Hs & Hexp & Hinc).
  fold expense in Hexp, Hinc.
  unfold nonneg_balances in Hinv. rewrite Forall_forall in Hinv.
  assert (Keep : forall c, In c (categories st) ->
            if expense
            then leb (Category.balance c) (Category.balance c) = true
            else geb (Category.balance c) (Category.balance c) = true).
  { intros c Hc. specialize (Hinv c Hc). apply nonneg_not_NaN in Hinv.
    destruct expense; [now apply leb_refl|now apply geb_refl]. }
  unfold addTransaction. destruct (truthy _).
  - cbn [setCategories setTransactions categories].
    apply Forall2_map_same. intros c Hc.
    destruct (strict_eq (PStr _) _); [|now apply Keep].
    cbn [Category.with_balance Category.balance]. rewrite Hs.
    specialize (Hinv c Hc).
    destruct expense.
    + apply debit_le; auto.
    + apply credit_ge; auto.
  - cbn [setTransactions categories].
    rewrite <- (map_id (categories st)) at 2.
    apply Forall2_map_same. intros c Hc. now apply Keep.
Qed.

Lemma addTransaction_monotone_witness :
  Forall2 (fun c c' =>
             leb (Category.balance c') (Category.balance c) = true)
          (categories Scenario.after_distribute)
          (categories
             (addTransaction "tx1" "d" rent Scenario.after_distribute)).
Proof.
  apply (addTransaction_monotone "tx1" "d" rent Scenario.after_distribute).
  - repeat constructor.
  - reflexivity.
Defined.

Module ClampFacts.
Local Open Scope Qc_scope.

(** The clamp of a debit on finite numbers, by cases on the amount. *)
Lemma clamp_debit (b q : Qc) :
  Math_max zero (add (Fin b) (neg (Math_abs (Fin q))))
  = if geb (Math_abs (Fin q)) (Fin b) then zero
    else sub (Fin b) (Math_abs (Fin q)).
Proof.
  cbn [Math_abs neg add sub]. unfold Math_max, geb, zero. cbn [compare].
  destruct (Qcabs q ?= b) eqn:E.
  - apply (proj1 (compare_Eq _ _)) in E.
    replace (0 ?= b + - Qcabs q) with Eq; [reflexivity|].
    symmetry. apply compare_Eq. rewrite E. ring.
  - apply (proj1 (compare_Lt _ _)) in E.
    replace (0 ?= b + - Qcabs q) with Lt; [reflexivity|].
    symmetry. apply compare_Lt. revert E. qc2q. lra.
  - apply (proj1 (compare_Gt _ _)) in E.
    replace (0 ?= b + - Qcabs q) with Gt; [reflexivity|].
    symmetry. apply compare_Gt. revert E. qc2q. lra.
Qed.
End ClampFacts.

Import ClampFacts.

(** X8.  An expense on a category with a finite balance [B] leaves
    exactly [0] when its amount [|A|] is at least [B] (the excess is
    dropped), and [B - |A|] otherwise. *)
Theorem addTransaction_overdraft
  (txid now : string) (a : TxArgs.t) (st : State) (c : Category.t) :
  In c (categories st) ->
  TxArgs.categoryId a = PStr (Category.id c) ->
  Category.id c <> ""%string ->
  strict_eq (type_or_default (TxArgs.type a)) (PStr "expense") = true ->
  is_finite (Category.balance c) = true ->
  is_finite (Number_or_0 (TxArgs.amount a)) = true ->
  let B := Category.balance c in
  let A := Math_abs (Number_or_0 (TxArgs.amount a)) in
  In (Category.with_balance c (if geb A B then zero else sub B A))
     (categories (addTransaction txid now a st)).
Proof.
  intros Hin Hid Hne Hexp HB HA B A.
  unfold addTransaction. rewrite Hid, (truthy_PStr _ Hne).
  cbn [setCategories setTransactions categories].
  apply in_map_iff. exists c. split; [|exact Hin].
  replace (strict_eq (PStr (Category.id c)) (PStr (Category.id c)))
    with true by (cbn; now rewrite String.eqb_refl).
  f_equal. unfold signed. rewrite Hexp. fold A. fold B.
  subst A B.
  destruct (Category.balance c) as [| | |b]; try discriminate HB.
  destruct (Number_or_0 (TxArgs.amount a)) as [| | |q]; try discriminate HA.
  apply clamp_debit.
Qed.

Lemma addTransaction_overdraft_witness :
  In (Category.with_balance (Scenario.cat "c0" 50) zero)
     (categories
        (addTransaction "tx1" "d" rent
           (setCategories Scenario.start
              [Category.with_balance (Scenario.cat "c0" 50) (of_Z 500)]))).
Proof.
  apply (addTransaction_overdraft "tx1" "d" rent
           (setCategories Scenario.start
              [Category.with_balance (Scenario.cat "c0" 50) (of_Z 500)])
           (Category.with_balance (Scenario.cat "c0" 50) (of_Z 500))).
  - left. reflexivity.
  - reflexivity.
  - discriminate.
  - reflexivity.
  - reflexivity.
  - reflexivity.
Defined.

(* ================================================================== *)
(** * More on goal transfers and on what the page shows *)
(* ================================================================== *)

Module GoalMore.
Local Open Scope Qc_scope.

Lemma find_all_false (A : Type) (f : A -> bool) (l : list A) :
  (forall x, In x l -> f x = false) -> find f l = None.
Proof.
  induction l as [|x l IH]; intros H; [reflexivity|].
  cbn. rewrite (H x (or_introl eq_refl)). apply IH.
  intros y Hy. apply H. now right.
Qed.

(** A transfer [min(B, t)] out of a finite [B] exceeds neither [t]
    nor [B], and is all of [B] when [t] is at least [B]. *)
Lemma transfer_bounds (b t : Qc) :
  let m := Math_min (Fin b) (Fin t) in
  leb m (Fin t) = true
  /\ leb m (Fin b) = true
  /\ (geb (Fin t) (Fin b) = true -> m = Fin b /\ sub (Fin b) m = zero).
Proof.
  assert (Z : sub (Fin b) (Fin b) = zero).
  { cbn [sub neg add]. unfold zero. f_equal. ring. }
  unfold Math_min. cbn [compare].
  destruct (b ?= t) eqn:E.
  - apply (proj1 (compare_Eq _ _)) in E. subst t.
    split; [apply leb_fin, Qcle_refl|].
    split; [apply leb_fin, Qcle_refl|]. intros _. now split.
  - apply (proj1 (compare_Lt _ _)) in E.
    split; [apply leb_fin; now apply Qclt_le_weak|].
    split; [apply leb_fin, Qcle_refl|]. intros _. now split.
  - apply (proj1 (compare_Gt _ _)) in E.
    split; [apply leb_fin, Qcle_refl|].
    split; [apply leb_fin; now apply Qclt_le_weak|].
    intros H. apply geb_fin in H. exfalso. apply (Qclt_not_le _ _ E H).
Qed.

(** [Math.max(1, t)] of a finite target is finite and positive. *)
Lemma one_max_positive (t : Qc) :
  exists m, Math_max one (Fin t) = Fin m /\ 0 < m.
Proof.
  unfold Math_max, one. cbn [compare].
  destruct (1 ?= t) eqn:E.
  - exists 1. split; [reflexivity|]. qc2q. lra.
  - apply (proj1 (compare_Lt _ _)) in E. exists t. split; [reflexivity|].
    revert E. qc2q. lra.
  - exists 1. split; [reflexivity|]. qc2q. lra.
Qed.

(** The filled part of the bar before the cap, on finite numbers. *)
Lemma filled_fin (s t : Qc) :
  exists x,
    mul (div (Fin s) (Math_max one (Fin t))) (of_Z 100) = Fin x
    /\ (0 <= s -> 0 <= x).
Proof.
  destruct (one_max_positive t) as (m & Hm & Hm0). rewrite Hm.
  cbn [div]. rewrite Qc_eq_bool_false
    by (intros E; rewrite E in Hm0; revert Hm0; qc2q; lra).
  unfold of_Z. cbn [mul]. eexists. split; [reflexivity|].
  intros Hs. apply Qc_mult_nonneg; [now apply Qc_div_nonneg|].
  qc2q. discriminate.
Qed.

(** The cap at 100. *)
Lemma capped (x : Qc) :
  leb (Math_min (of_Z 100) (Fin x)) (of_Z 100) = true
  /\ (0 <= x -> geb (Math_min (of_Z 100) (Fin x)) zero = true).
Proof.
  unfold of_Z, Math_min. cbn [compare].
  set (h := Q2Qc (inject_Z 100)).
  assert (Hh : 0 <= h) by (subst h; qc2q; discriminate).
  destruct (h ?= x) eqn:E.
  - split; [apply leb_fin, Qcle_refl|]. intros _. now apply geb_fin.
  - split; [apply leb_fin, Qcle_refl|]. intros _. now apply geb_fin.
  - apply (proj1 (compare_Gt _ _)) in E. split.
    + apply leb_fin. now apply Qclt_le_weak.
    + intros Hx. now apply geb_fin.
Qed.
End GoalMore.

Import GoalMore.

(** X9.  In a state with unique category ids, a transfer out of the
    category [c] with the non-empty id [fromCategoryId], a finite
    balance [B > 0] and a finite target takes [saved], leaving
    [B - saved] in [c]; [saved] exceeds neither the target nor [B];
    and a target of at least [B] empties the category: [saved] is [B]
    and exactly [0] is left. *)
Theorem createGoal_transfer_bounds
  (gid : string) (a : GoalArgs.t) (st : State) (c : Category.t) :
  NoDup (map Category.id (categories st)) ->
  In c (categories st) ->
  GoalArgs.fromCategoryId a = PStr (Category.id c) ->
  Category.id c <> ""%string ->
  let B := Category.balance c in
  is_finite B = true ->
  gtb B zero = true ->
  is_finite (Number_or_0 (GoalArgs.targetAmount a)) = true ->
  exists gs g,
    goals (createGoal gid a st) = gs ++ [g]
    /\ In (Category.with_balance c (sub B (Goal.saved g)))
          (categories (createGoal gid a st))
    /\ leb (Goal.saved g) (Goal.targetAmount g) = true
    /\ leb (Goal.saved g) B = true
    /\ (geb (Goal.targetAmount g) B = true ->
        Goal.saved g = B /\ sub B (Goal.saved g) = zero).
Proof.
  intros Hnd Hc Hfrom Hid B HfinB HB Ht.
  rewrite (createGoal_funded gid a st c Hnd Hc Hfrom Hid HB).
  cbn [goals categories]. subst B.
  destruct (Category.balance c) as [| | |b] eqn:EB; try discriminate HfinB.
  destruct (Number_or_0 (GoalArgs.targetAmount a)) as [| | |t] eqn:Et;
    try discriminate Ht.
  destruct (transfer_bounds b t) as (H1 & H2 & H3).
  eexists. eexists.
  split; [reflexivity|].
  cbn [Goal.with_saved Goal.saved Goal.targetAmount new_goal].
  rewrite Et. repeat split; try assumption.
  - unfold withdraw. apply in_map_iff. exists c.
    rewrite String.eqb_refl, EB. split; [reflexivity|exact Hc].
  - now apply H3.
  - now apply H3.
Qed.

Lemma createGoal_transfer_bounds_witness :
  exists gs g,
    goals (createGoal "g1" trip funded_state) = gs ++ [g]
    /\ In (Category.with_balance savings (sub (of_Z 300) (Goal.saved g)))
          (categories (createGoal "g1" trip funded_state))
    /\ leb (Goal.saved g) (Goal.targetAmount g) = true
    /\ leb (Goal.saved g) (of_Z 300) = true
    /\ (geb (Goal.targetAmount g) (of_Z 300) = true ->
        Goal.saved g = of_Z 300 /\ sub (of_Z 300) (Goal.saved g) = zero).
Proof.
  apply (createGoal_transfer_bounds "g1" trip funded_state savings).
  - repeat constructor; cbn; intuition discriminate.
  - right. left. reflexivity.
  - reflexivity.
  - discriminate.
  - reflexivity.
  - reflexivity.
  - reflexivity.
Defined.

(** X10.  A goal created with no source (the empty, [null] or missing
    [fromCategoryId] of "(no transfer)") or with the id of no category
    is appended with [saved = 0] and the coerced target; no category
    and no earlier goal changes. *)
Theorem createGoal_no_source (gid : string) (a : GoalArgs.t) (st : State) :
  truthy (GoalArgs.fromCategoryId a) = false
  \/ (forall c, In c (categories st) ->
                strict_eq (PStr (Category.id c)) (GoalArgs.fromCategoryId a)
                = false) ->
  createGoal gid a st
  = setGoals st
      (goals st
       ++ [ {| Goal.id := gid; Goal.name := GoalArgs.name a;
               Goal.targetAmount := Number_or_0 (GoalArgs.targetAmount a);
               Goal.saved := zero |} ]).
Proof.
  intros H. unfold createGoal. destruct H as [H|H].
  - rewrite H. reflexivity.
  - destruct (truthy _); [|reflexivity].
    rewrite (find_all_false _ _ _ H). reflexivity.
Qed.

Lemma createGoal_no_source_witness :
  createGoal "g1"
    {| GoalArgs.name := PStr "Trip"; GoalArgs.targetAmount := PStr "900";
       GoalArgs.fromCategoryId := PStr "" |}
    funded_state
  = setGoals funded_state
      (goals funded_state
       ++ [ {| Goal.id := "g1"; Goal.name := PStr "Trip";
               Goal.targetAmount := Number_or_0 (PStr "900");
               Goal.saved := zero |} ]).
Proof.
  apply (createGoal_no_source "g1"
           {| GoalArgs.name := PStr "Trip";
              GoalArgs.targetAmount := PStr "900";
              GoalArgs.fromCategoryId := PStr "" |}
           funded_state).
  left. reflexivity.
Defined.

(** X11.  When the id drawn for the goal is the id of no earlier goal,
    [createGoal] appends one goal and changes no earlier one, funded
    or not. *)
Theorem createGoal_keeps_goals (gid : string) (a : GoalArgs.t) (st : State) :
  (forall g, In g (goals st) -> Goal.id g <> gid) ->
  exists g,
    goals (createGoal gid a st) = goals st ++ [g]
    /\ Goal.id g = gid
    /\ Goal.name g = GoalArgs.name a
    /\ Goal.targetAmount g = Number_or_0 (GoalArgs.targetAmount a).
Proof.
  intros Hfresh. unfold createGoal.
  destruct (truthy _);
    [|eexists; split; [reflexivity|repeat split]].
  destruct (find _ _);
    [|eexists; split; [reflexivity|repeat split]].
  destruct (gtb _ zero);
    [|eexists; split; [reflexivity|repeat split]].
  cbn [setCategories setGoals goals new_goal Goal.id].
  rewrite map_app. cbn [map Goal.id]. rewrite String.eqb_refl.
  rewrite map_if_false.
  - eexists. split; [reflexivity|]. repeat split.
  - intros g Hg. apply String.eqb_neq. now apply Hfresh.
Qed.

Lemma createGoal_keeps_goals_witness :
  exists g,
    goals (createGoal "g2" trip Scenario.after_goal)
    = goals Scenario.after_goal ++ [g]
    /\ Goal.id g = "g2"%string
    /\ Goal.name g = GoalArgs.name trip
    /\ Goal.targetAmount g = Number_or_0 (GoalArgs.targetAmount trip).
Proof.
  apply (createGoal_keeps_goals "g2" trip Scenario.after_goal).
  intros g [<-|[]]. discriminate.
Defined.

(** X12.  The bar of a goal with finite [saved] and target is never
    wider than 100 percent, and is not negative when [saved >= 0]. *)
Theorem progress_bounded (g : Goal.t) :
  is_finite (Goal.saved g) = true ->
  is_finite (Goal.targetAmount g) = true ->
  leb (progress g) (of_Z 100) = true
  /\ (geb (Goal.saved g) zero = true -> geb (progress g) zero = true).
Proof.
  intros Hs Ht. unfold progress.
  destruct (Goal.saved g) as [| | |s]; try discriminate Hs.
  destruct (Goal.targetAmount g) as [| | |t]; try discriminate Ht.
  destruct (filled_fin s t) as (x & -> & Hx).
  destruct (capped x) as [Hcap Hpos].
  split; [exact Hcap|].
  intros Hs0. apply Hpos, Hx. now apply geb_fin in Hs0.
Qed.

Lemma progress_bounded_witness :
  leb (progress (Goal.mk "g1" (PStr "Trip") (of_Z 1000) (of_Z 300)))
      (of_Z 100) = true
  /\ (geb (of_Z 300) zero = true ->
      geb (progress (Goal.mk "g1" (PStr "Trip") (of_Z 1000) (of_Z 300)))
          zero = true).
Proof.
  apply (progress_bounded (Goal.mk "g1" (PStr "Trip") (of_Z 1000) (of_Z 300)));
    reflexivity.
Defined.

(** X13.  Once a category is removed, a transaction that still refers
    to its id is shown with the label "-", the log is as it was, and
    a new transaction against that id is logged without changing any
    category. *)
Theorem removed_category_dangles
  (i : string) (st : State) (tx : Transaction.t)
  (txid now : string) (a : TxArgs.t) :
  Transaction.categoryId tx = PStr i ->
  TxArgs.categoryId a = PStr i ->
  let st' := removeCategory (PStr i) st in
  category_label (categories st') tx = PStr "-"
  /\ transactions st' = transactions st
  /\ categories (addTransaction txid now a st') = categories st'.
Proof.
  intros Htx Ha st'.
  assert (Gone : forall c, In c (categories st') ->
            strict_eq (PStr (Category.id c)) (PStr i) = false).
  { intros c Hc. subst st'. unfold removeCategory in Hc.
    cbn [setCategories categories] in Hc.
    apply filter_In in Hc. destruct Hc as [_ Hc].
    now apply negb_true_iff in Hc. }
  split; [|split].
  - unfold category_label. rewrite Htx.
    now rewrite (find_all_false _ _ _ Gone).
  - reflexivity.
  - unfold addTransaction. rewrite Ha. destruct (truthy _); [|reflexivity].
    cbn [setCategories setTransactions categories].
    now apply map_if_false.
Qed.

Lemma removed_category_dangles_witness :
  category_label
    (categories (removeCategory (PStr "c0") Scenario.after_expense))
    (Transaction.mk "tx1" (PStr "Rent") (of_Z (-600)) (PStr "c0") "d")
  = PStr "-"
  /\ transactions (removeCategory (PStr "c0") Scenario.after_expense)
     = transactions Scenario.after_expense
  /\ categories
       (addTransaction "tx2" "d" rent
          (removeCategory (PStr "c0") Scenario.after_expense))
     = categories (removeCategory (PStr "c0") Scenario.after_expense).
Proof.
  apply (removed_category_dangles "c0" Scenario.after_expense
           (Transaction.mk "tx1" (PStr "Rent") (of_Z (-600)) (PStr "c0") "d")
           "tx2" "d" rent); reflexivity.
Defined.

(* ================================================================== *)
(** * Category edits *)
(* ================================================================== *)

Module CrudFacts.

Lemma state_eta (st : State) : setCategories st (categories st) = st.
Proof. destruct st. reflexivity. Qed.

Lemma filter_all_true (A : Type) (f : A -> bool) (l : list A) :
  (forall x, In x l -> f x = true) -> filter f l = l.
Proof.
  induction l as [|x l IH]; intros H; [reflexivity|].
  cbn. rewrite (H x (or_introl eq_refl)). f_equal. apply IH.
  intros y Hy. apply H. now right.
Qed.

Lemma NoDup_snoc (A : Type) (l : list A) (x : A) :
  NoDup l -> ~ In x l -> NoDup (l ++ [x]).
Proof.
  induction 1 as [|y l Hy Hnd IH]; intros Hx; cbn.
  - constructor; [intros []|constructor].
  - constructor.
    + intros Hin. apply in_app_or in Hin. destruct Hin as [Hin|[->|[]]].
      * contradiction.
      * apply Hx. now left.
    + apply IH. intros Hin. apply Hx. now right.
Qed.

Lemma NoDup_map_filter (A B : Type) (g : A -> B) (f : A -> bool)
      (l : list A) :
  NoDup (map g l) -> NoDup (map g (filter f l)).
Proof.
  induction l as [|x l IH]; cbn; intros H; [constructor|].
  inversion H as [|? ? Hx Hnd]; subst.
  destruct (f x); cbn; [|now apply IH].
  constructor; [|now apply IH].
  intros Hin. apply Hx. apply in_map_iff in Hin.
  destruct Hin as (y & Hy & Hin). apply filter_In in Hin.
  apply in_map_iff. exists y. tauto.
Qed.

Lemma totalPercent_snoc (cs : list Category.t) (c : Category.t) :
  totalPercent (cs ++ [c])
  = add (totalPercent cs) (Number_or_0 (Category.percent c)).
Proof. unfold totalPercent. now rewrite fold_left_app. Qed.

Lemma sum_balances_snoc (cs : list Category.t) (c : Category.t) :
  sum_balances (cs ++ [c]) = add (sum_balances cs) (Category.balance c).
Proof. unfold sum_balances. now rewrite fold_left_app. Qed.

Lemma addCategory_shape_total (cid : string) (n : prim) (st : State) :
  totalPercent (categories (addCategory cid n st))
  = totalPercent (categories st).
Proof.
  unfold addCategory. cbn [setCategories categories].
  rewrite totalPercent_snoc.
  cbn [new_category Category.percent].
  replace (Number_or_0 (PNum zero)) with zero by reflexivity.
  apply add_zero_r.
Qed.

Lemma apply_twice (c : Category.t) (p : Patch.t) :
  Patch.apply (Patch.apply c p) p = Patch.apply c p.
Proof.
  unfold Patch.apply. destruct p as [[i|] [n|] [q|] [b|]]; reflexivity.
Qed.
End CrudFacts.

Import CrudFacts.

(** X14.  A new category starts with percent [0] and balance [0], at
    the end of the list: adding it changes neither the total percent
    nor the sum of the balances, nor any category, the income, the log
    or the goals. *)
Theorem addCategory_neutral (cid : string) (n : prim) (st : State) :
  let st' := addCategory cid n st in
  (exists c,
      categories st' = categories st ++ [c]
      /\ Category.id c = cid
      /\ Category.percent c = PNum zero
      /\ Category.balance c = zero)
  /\ totalPercent (categories st') = totalPercent (categories st)
  /\ sum_balances (categories st') = sum_balances (categories st)
  /\ income st' = income st
  /\ transactions st' = transactions st
  /\ goals st' = goals st.
Proof.
  cbv zeta. unfold addCategory. cbn [setCategories categories income
                                     transactions goals].
  split; [eexists; split; [reflexivity|repeat split]|].
  rewrite totalPercent_snoc, sum_balances_snoc.
  cbn [new_category Category.percent Category.balance].
  replace (Number_or_0 (PNum zero)) with zero by reflexivity.
  rewrite !add_zero_r. repeat split.
Qed.

(** X15.  When some percent is allocated (the total is neither [0] nor
    [NaN]) and the income is finite, distributing after adding a
    category gives every earlier category what distributing without
    it gives, and the new category [0]. *)
Theorem addCategory_then_distribute
  (cid : string) (n : prim) (st : State) :
  let T := totalPercent (categories st) in
  eqb T zero = false ->
  T <> NaN ->
  is_finite (Number (income st)) = true ->
  categories (distributeIncome (addCategory cid n st))
  = categories (distributeIncome st) ++ [new_category cid n].
Proof.
  intros T Hz Hn Hi.
  assert (Hne : categories st <> []).
  { intros E. subst T. rewrite E in Hz. discriminate Hz. }
  assert (HT : totalPercent (categories (addCategory cid n st)) = T).
  { apply addCategory_shape_total. }
  rewrite (distribute_cases st Hne). fold T. rewrite Hz.
  rewrite distribute_cases.
  - rewrite HT, Hz. unfold addCategory.
    cbn [setCategories categories income]. rewrite map_app. f_equal.
    cbn [map]. rewrite (allocated_zero T (income st) _ Hn Hi) by reflexivity.
    reflexivity.
  - unfold addCategory. cbn [setCategories categories].
    intros E. apply app_eq_nil in E. destruct E as [_ E]. discriminate E.
Qed.

Lemma addCategory_then_distribute_witness :
  categories
    (distributeIncome (addCategory "c3" (PStr "Gifts") Scenario.start))
  = categories (distributeIncome Scenario.start)
    ++ [new_category "c3" (PStr "Gifts")].
Proof.
  apply (addCategory_then_distribute "c3" (PStr "Gifts") Scenario.start).
  - reflexivity.
  - discriminate.
  - reflexivity.
Defined.

(** X16.  Removing a category that was just added under an id not in
    use gives the state back, and removing an id that no category has
    changes nothing. *)
Theorem removeCategory_undoes_add (cid : string) (n : prim) (st : State) :
  ~ In cid (map Category.id (categories st)) ->
  removeCategory (PStr cid) (addCategory cid n st) = st
  /\ removeCategory (PStr cid) st = st.
Proof.
  intros Hfresh.
  assert (Keep : filter (fun c => negb (strict_eq (PStr (Category.id c))
                                                  (PStr cid)))
                        (categories st) = categories st).
  { apply filter_all_true. intros c Hc. apply negb_true_iff. cbn.
    apply String.eqb_neq. intros E. apply Hfresh. rewrite <- E.
    now apply in_map. }
  split.
  - unfold removeCategory, addCategory.
    cbn [setCategories categories income transactions goals].
    rewrite filter_app, Keep. cbn [filter new_category Category.id strict_eq].
    rewrite String.eqb_refl. cbn [negb]. rewrite app_nil_r.
    destruct st; reflexivity.
  - unfold removeCategory. rewrite Keep. apply state_eta.
Qed.

Lemma removeCategory_undoes_add_witness :
  removeCategory (PStr "c3") (addCategory "c3" (PStr "Gifts") Scenario.start)
  = Scenario.start
  /\ removeCategory (PStr "c3") Scenario.start = Scenario.start.
Proof.
  apply (removeCategory_undoes_add "c3" (PStr "Gifts") Scenario.start).
  cbn. intuition discriminate.
Defined.

(** X17.  Applying the same patch to the same id twice is applying it
    once, also when the patch renames the id. *)
Theorem updateCategory_idempotent (id : prim) (patch : Patch.t) (st : State) :
  updateCategory id patch (updateCategory id patch st)
  = updateCategory id patch st.
Proof.
  unfold updateCategory. cbn [setCategories categories income transactions
                              goals].
  set (F := fun c => if strict_eq (PStr (Category.id c)) id
                     then Patch.apply c patch else c).
  assert (H : map F (map F (categories st)) = map F (categories st)).
  { rewrite map_map. apply map_ext. intros c. subst F. cbv beta.
    destruct (strict_eq (PStr (Category.id c)) id) eqn:E.
    - destruct (strict_eq (PStr (Category.id (Patch.apply c patch))) id);
        [apply apply_twice|reflexivity].
    - now rewrite E. }
  now rewrite H.
Qed.

(** X18.  An edit that sets no balance (as the percent field of the
    page does) changes no balance and redistributes nothing; it keeps
    the number and order of the categories, and every category with
    another id as it is.  An edit under the id of no category changes
    nothing at all. *)
Theorem updateCategory_keeps_balances
  (id : prim) (patch : Patch.t) (st : State) :
  Patch.balance patch = None ->
  Forall2 (fun c c' =>
             Category.balance c' = Category.balance c
             /\ (strict_eq (PStr (Category.id c)) id = false -> c' = c))
          (categories st) (categories (updateCategory id patch st))
  /\ ((forall c, In c (categories st) ->
                 strict_eq (PStr (Category.id c)) id = false) ->
      updateCategory id patch st = st).
Proof.
  intros Hb. unfold updateCategory. cbn [setCategories categories]. split.
  - apply Forall2_map_same. intros c _.
    destruct (strict_eq _ id); [|split; reflexivity].
    split; [|discriminate].
    unfold Patch.apply. cbn [Category.balance]. now rewrite Hb.
  - intros H. rewrite (map_if_false _ _ _ _ H). apply state_eta.
Qed.

Lemma updateCategory_keeps_balances_witness :
  Forall2 (fun c c' =>
             Category.balance c' = Category.balance c
             /\ (strict_eq (PStr (Category.id c)) (PStr "c1") = false ->
                 c' = c))
          (categories Scenario.after_distribute)
          (categories
             (updateCategory (PStr "c1")
                (Patch.mk None None (Some (PNum (of_Z 45))) None)
                Scenario.after_distribute)).
Proof.
  apply (updateCategory_keeps_balances (PStr "c1")
           (Patch.mk None None (Some (PNum (of_Z 45))) None)
           Scenario.after_distribute).
  reflexivity.
Defined.

(* ================================================================== *)
(** * Unique ids and balances [>= 0] along any run of actions *)
(* ================================================================== *)

Module RunFacts.

Lemma ids_of_shapes (cs cs' : list Category.t) :
  map shape cs = map shape cs' -> map Category.id cs = map Category.id cs'.
Proof.
  intros H.
  pose (g := fun sh : string * prim * prim => fst (fst sh)).
  change (map (fun c => g (shape c)) cs = map (fun c => g (shape c)) cs').
  rewrite <- !(map_map shape g). now rewrite H.
Qed.

Lemma engine_well_kept (op : operation) (st : State) :
  admissible op st -> well_kept st -> well_kept (run op st).
Proof.
  intros Hadm [Hids Hinv]. split.
  - unfold unique_ids in *.
    destruct (run_shape op st) as [_ Hs].
    now rewrite (ids_of_shapes _ _ Hs).
  - destruct op as [|txid now a|gid a]; cbn [run].
    + now apply distribute_nonneg.
    + now apply addTransaction_nonneg.
    + now apply createGoal_nonneg.
Qed.

Lemma addCategory_well_kept (cid : string) (n : prim) (st : State) :
  ~ In cid (map Category.id (categories st)) ->
  well_kept st -> well_kept (addCategory cid n st).
Proof.
  intros Hfresh [Hids Hinv]. unfold well_kept, unique_ids, nonneg_balances,
    addCategory in *. cbn [setCategories categories]. split.
  - rewrite map_app. cbn [map new_category Category.id].
    now apply NoDup_snoc.
  - apply Forall_app. split; [exact Hinv|]. repeat constructor.
Qed.

Lemma updateCategory_well_kept (id : prim) (patch : Patch.t) (st : State) :
  allowed (UpdateCategory id patch) st ->
  well_kept st -> well_kept (updateCategory id patch st).
Proof.
  intros [Hid Hb] [Hids Hinv]. unfold well_kept, unique_ids, nonneg_balances,
    updateCategory in *. cbn [setCategories categories]. split.
  - rewrite map_map.
    replace (map _ (categories st)) with (map Category.id (categories st));
      [exact Hids|].
    apply map_ext. intros c. destruct (strict_eq _ id); [|reflexivity].
    unfold Patch.apply. cbn [Category.id]. now rewrite Hid.
  - apply Forall_forall. intros c' Hin. apply in_map_iff in Hin.
    destruct Hin as (c & <- & Hin).
    rewrite Forall_forall in Hinv. specialize (Hinv c Hin).
    destruct (strict_eq _ id); [|exact Hinv].
    unfold Patch.apply. cbn [Category.balance].
    destruct (Patch.balance patch); [exact Hb|exact Hinv].
Qed.

Lemma removeCategory_well_kept (id : prim) (st : State) :
  well_kept st -> well_kept (removeCategory id st).
Proof.
  intros [Hids Hinv]. unfold well_kept, unique_ids, nonneg_balances,
    removeCategory in *. cbn [setCategories categories]. split.
  - now apply NoDup_map_filter.
  - apply Forall_forall. intros c Hc. apply filter_In in Hc.
    rewrite Forall_forall in Hinv. now apply Hinv.
Qed.

Lemma perform_well_kept (a : action) (st : State) :
  allowed a st -> well_kept st -> well_kept (perform a st).
Proof.
  destruct a as [op|cid n|id patch|id]; cbn [perform allowed].
  - apply engine_well_kept.
  - apply addCategory_well_kept.
  - apply (updateCategory_well_kept id patch).
  - intros _. apply removeCategory_well_kept.
Qed.
End RunFacts.

Import RunFacts.

(** X19.  Along any run of actions of the page (distributions,
    transactions, goals, added, edited and removed categories), each
    allowed in the state it meets, the category ids stay unique and
    every balance stays [>= 0]. *)
Theorem run_well_kept (l : list action) (st : State) :
  allowed_run l st -> well_kept st -> well_kept (perform_all l st).
Proof.
  revert st. induction l as [|a l IH]; intros st Hrun Hst.
  - exact Hst.
  - destruct Hrun as [Ha Hrun]. cbn [perform_all fold_left].
    apply IH; [exact Hrun|]. now apply perform_well_kept.
Qed.

Lemma run_well_kept_witness :
  well_kept
    (perform_all
       [Engine Distribute;
        AddCategory "c3" (PStr "Gifts");
        Engine (AddTransaction "tx1" "d" rent);
        UpdateCategory (PStr "c3")
          (Patch.mk None None (Some (PNum (of_Z 10))) None);
        Engine (CreateGoal "g1" trip);
        RemoveCategory (PStr "c0");
        Engine Distribute]
       Scenario.start).
Proof.
  apply (run_well_kept
           [Engine Distribute;
            AddCategory "c3" (PStr "Gifts");
            Engine (AddTransaction "tx1" "d" rent);
            UpdateCategory (PStr "c3")
              (Patch.mk None None (Some (PNum (of_Z 10))) None);
            Engine (CreateGoal "g1" trip);
            RemoveCategory (PStr "c0");
            Engine Distribute]
           Scenario.start).
  - cbn [allowed_run]. repeat split;
      try reflexivity;
      try (repeat constructor; cbn; intuition discriminate).
  - split; repeat constructor; cbn; intuition discriminate.
Defined.

(* ================================================================== *)
(** * Persistence *)
(* ================================================================== *)

Import Storage.

Module StorageFacts.
Local Open Scope string_scope.

(** The codec on stored texts obeys both laws. *)
Lemma StoreJSON_laws : JSONLaws StoreJSON.
Proof.
  intros v Hv. cbn [JSON_parse JSON_stringify StoreJSON].
  now rewrite (written_safe v Hv).
Qed.

Lemma StoreTest_laws : TextLaws StoreJSON StoreTest.
Proof. intros v. reflexivity. Qed.

Section Laws.
Context {J : JSON} {T : TextTest J}.

Lemma getItem_saveLS (key : string) (v : value) (s : storage) :
  getItem (saveLS key v s) key = Some (JSON_stringify v).
Proof. unfold getItem, saveLS, setItem. now rewrite String.eqb_refl. Qed.

Lemma getItem_saveLS_other (key key' : string) (v : value) (s : storage) :
  key' <> key ->
  getItem (saveLS key v s) key' = getItem s key'.
Proof.
  intros H. unfold getItem, saveLS, setItem.
  apply String.eqb_neq in H. now rewrite H.
Qed.

Lemma loadLS_other (key key' : string) (fb v : value) (s : storage) :
  key' <> key ->
  loadLS key' fb (saveLS key v s) = loadLS key' fb s.
Proof.
  intros H. unfold loadLS. now rewrite (getItem_saveLS_other _ _ _ _ H).
Qed.

Lemma loadLS_same (L : JSONLaws J) (TL : TextLaws J T)
      (key : string) (fb v : value) (s : storage) :
  json_safe v = true ->
  loadLS key fb (saveLS key v s) = v.
Proof.
  intros Hv. unfold loadLS.
  now rewrite getItem_saveLS, (TL v), (L v Hv).
Qed.
End Laws.
End StorageFacts.

Import StorageFacts.

(** X20.  What [saveLS] stores under a key, [loadLS] reads back under
    that key instead of the fallback, for every value that JSON holds
    without loss, [null], [0], [false] and the empty list included;
    a later save under the same key replaces an earlier one. *)
Theorem loadLS_reads_saved
  (J : JSON) (T : TextTest J) (L : JSONLaws J) (TL : TextLaws J T)
  (key : string) (fallback v older : value) (s : storage) :
  json_safe v = true ->
  loadLS key fallback (saveLS key v s) = v
  /\ loadLS key fallback (saveLS key v (saveLS key older s)) = v.
Proof.
  intros Hv. split; now apply loadLS_same.
Qed.

Lemma loadLS_reads_saved_witness :
  loadLS (J := StoreJSON) (T := StoreTest) "ws_income" (num (of_Z 50000))
    (saveLS (J := StoreJSON) "ws_income" (num zero) empty_storage)
  = num zero
  /\ loadLS (J := StoreJSON) (T := StoreTest) "ws_income" (num (of_Z 50000))
       (saveLS (J := StoreJSON) "ws_income" (num zero)
          (saveLS (J := StoreJSON) "ws_income" null empty_storage))
     = num zero.
Proof.
  apply (loadLS_reads_saved StoreJSON StoreTest StoreJSON_laws StoreTest_laws
           "ws_income" (num (of_Z 50000)) (num zero) null empty_storage).
  reflexivity.
Defined.

(** X21.  [loadLS] gives the fallback, and does not throw, when the
    key holds nothing, holds the empty text, or holds a text that
    does not parse. *)
Theorem loadLS_falls_back
  (J : JSON) (T : TextTest J) (key : string) (fallback : value)
  (s : storage) :
  getItem s key = None
  \/ (exists t, getItem s key = Some t
                /\ (text_is_empty t = true
                    \/ exists e, JSON_parse t = Throw e)) ->
  loadLS key fallback s = fallback.
Proof.
  unfold loadLS. intros [H|(t & H & [He|(e & Hp)])]; rewrite H.
  - reflexivity.
  - now rewrite He.
  - rewrite Hp. now destruct (text_is_empty t).
Qed.

Lemma loadLS_falls_back_witness :
  loadLS (J := StoreJSON) (T := StoreTest) "ws_tx" (VArr [])
    (setItem (J := StoreJSON) empty_storage "ws_tx" Garbled)
  = VArr [].
Proof.
  apply (loadLS_falls_back StoreJSON StoreTest "ws_tx" (VArr [])
           (setItem (J := StoreJSON) empty_storage "ws_tx" Garbled)).
  right. exists Garbled. split; [reflexivity|].
  right. exists SyntaxError. reflexivity.
Defined.

(** X22.  Saving under one key changes what [loadLS] reads under no
    other key. *)
Theorem saveLS_other_keys
  (J : JSON) (T : TextTest J) (key key' : string) (fallback v : value)
  (s : storage) :
  key' <> key ->
  loadLS key' fallback (saveLS key v s) = loadLS key' fallback s.
Proof. apply loadLS_other. Qed.

Lemma saveLS_other_keys_witness :
  loadLS (J := StoreJSON) (T := StoreTest) "ws_goals" (VArr [])
    (saveLS (J := StoreJSON) "ws_income" (num zero) empty_storage)
  = loadLS (J := StoreJSON) (T := StoreTest) "ws_goals" (VArr [])
      empty_storage.
Proof.
  apply (saveLS_other_keys StoreJSON StoreTest "ws_income" "ws_goals"
           (VArr []) (num zero) empty_storage).
  discriminate.
Defined.

(** X23.  Once the four save effects have run on a valid state, the
    four initialisers read that state back from the storage, whatever
    the storage held before and whatever the fallbacks are. *)
Theorem restore_persisted
  (J : JSON) (T : TextTest J) (L : JSONLaws J) (TL : TextLaws J T)
  (st : State) (fallbacks : Raw.state) (s : storage) :
  valid_state st = true ->
  restore fallbacks (persist (of_state st) s) = of_state st.
Proof.
  intros Hv. unfold valid_state in Hv.
  apply andb_prop in Hv. destruct Hv as [Hv Hg].
  apply andb_prop in Hv. destruct Hv as [Hv Ht].
  apply andb_prop in Hv. destruct Hv as [Hi Hc].
  unfold restore, persist, of_state.
  cbn [Raw.income Raw.categories Raw.transactions Raw.goals].
  rewrite (loadLS_same L TL "ws_goals")
    by (cbn [json_safe]; now apply goals_safe).
  rewrite (loadLS_other "ws_goals" "ws_tx") by discriminate.
  rewrite (loadLS_same L TL "ws_tx")
    by (cbn [json_safe]; now apply transactions_safe).
  rewrite !(loadLS_other "ws_goals" "ws_categories") by discriminate.
  rewrite !(loadLS_other "ws_tx" "ws_categories") by discriminate.
  rewrite (loadLS_same L TL "ws_categories")
    by (cbn [json_safe]; now apply categories_safe).
  rewrite !(loadLS_other "ws_goals" "ws_income") by discriminate.
  rewrite !(loadLS_other "ws_tx" "ws_income") by discriminate.
  rewrite !(loadLS_other "ws_categories" "ws_income") by discriminate.
  rewrite (loadLS_same L TL "ws_income")
    by (cbn [json_safe]; now apply valid_income_safe).
  reflexivity.
Qed.

Lemma restore_persisted_witness :
  restore (J := StoreJSON) (T := StoreTest)
    (of_state (defaults "i1" "i2" "i3"))
    (persist (J := StoreJSON) (of_state Scenario.after_goal) empty_storage)
  = of_state Scenario.after_goal.
Proof.
  apply (restore_persisted StoreJSON StoreTest StoreJSON_laws StoreTest_laws
           Scenario.after_goal (of_state (defaults "i1" "i2" "i3"))
           empty_storage).
  reflexivity.
Defined.

(* ================================================================== *)
(** * More on the import *)
(* ================================================================== *)

Import Defined.

Module ImportFacts.

Lemma nullish_twice (a b : value) : nullish a (nullish a b) = nullish a b.
Proof. destruct a as [[| |x|n|s]|items|props]; reflexivity. Qed.

Lemma nullish_defined (a b : value) :
  defined b = true -> defined (nullish a b) = true.
Proof. destruct a as [[| |x|n|s]|items|props]; auto. Qed.
End ImportFacts.

Import ImportFacts.

(** X25.  No import makes a field [null] or [undefined]: when the four
    fields in memory hold a value, they hold one after the import of
    any document, parsed or not. *)
Theorem importData_keeps_defined
  (J : JSON) (cur : Raw.state) (doc : text) :
  all_defined cur = true ->
  all_defined (fst (importData cur doc)) = true.
Proof.
  intros H. unfold importData, import_body, bind, lift, update.
  destruct (JSON_parse doc) as [v|e]; [|exact H].
  unfold all_defined in H.
  apply andb_prop in H. destruct H as [H Hg].
  apply andb_prop in H. destruct H as [H Ht].
  apply andb_prop in H. destruct H as [Hi Hc].
  destruct v as [[| |x|n|s]|items|props]; cbn [get fst];
    unfold all_defined;
    cbn [Raw.setIncome Raw.setCategories Raw.setTransactions Raw.setGoals
         Raw.income Raw.categories Raw.transactions Raw.goals nullish
         undefined];
    rewrite ?nullish_defined by assumption;
    rewrite ?Hi, ?Hc, ?Ht, ?Hg; reflexivity.
Qed.

Lemma importData_keeps_defined_witness :
  all_defined
    (fst (importData (J := TreeJSON) (of_state Scenario.start)
            (Document (VObj [("income"%string, null);
                             ("goals"%string, VArr [])]))))
  = true.
Proof.
  apply (importData_keeps_defined TreeJSON (of_state Scenario.start)
           (Document (VObj [("income"%string, null);
                            ("goals"%string, VArr [])]))).
  reflexivity.
Defined.

(** X26.  A document that parses to a list, a string, a number or a
    boolean is taken without any alert and changes nothing: it has
    none of the four fields. *)
Theorem import_without_fields
  (J : JSON) (cur : Raw.state) (doc : text) (v : value) :
  JSON_parse doc = Ok v ->
  match v with
  | VArr _ | VPrim (PBool _) | VPrim (PNum _) | VPrim (PStr _) => True
  | _ => False
  end ->
  importData cur doc = (cur, None).
Proof. apply importData_no_field. Qed.

Lemma import_without_fields_witness :
  importData (J := TreeJSON) (of_state Scenario.start)
    (Document (VArr [num zero]))
  = (of_state Scenario.start, None).
Proof.
  apply (import_without_fields TreeJSON (of_state Scenario.start)
           (Document (VArr [num zero])) (VArr [num zero])).
  - reflexivity.
  - exact I.
Defined.

(** X27.  The document [null] parses, yet it is answered like a
    document that does not: reading its first field throws before any
    setter runs, so "Invalid file" is alerted and nothing changes. *)
Theorem import_null_document
  (J : JSON) (cur : Raw.state) (doc : text) :
  JSON_parse doc = Ok null ->
  importData cur doc = (cur, Some "Invalid file"%string).
Proof. apply importData_null. Qed.

Lemma import_null_document_witness :
  importData (J := TreeJSON) (of_state Scenario.start) (Document null)
  = (of_state Scenario.start, Some "Invalid file"%string).
Proof.
  apply (import_null_document TreeJSON (of_state Scenario.start)
           (Document null)).
  reflexivity.
Defined.

(* ================================================================== *)
(** * The component around the import: the [income] effect *)
(* ================================================================== *)

Module ComponentFacts.
Local Open Scope string_scope.

Lemma Object_is_refl (v : prim) : Object_is v v = true.
Proof.
  destruct v as [| |b|n|s]; cbn; try reflexivity.
  - now destruct b.
  - destruct n as [| | |q]; try reflexivity.
    unfold eqb. cbn [compare].
    now rewrite (proj2 (compare_Eq q q) eq_refl).
  - apply String.eqb_refl.
Qed.

Lemma to_category_of (c : Category.t) : to_category (of_category c) = Some c.
Proof. destruct c. reflexivity. Qed.

Lemma to_transaction_of (t : Transaction.t) :
  to_transaction (of_transaction t) = Some t.
Proof. destruct t. reflexivity. Qed.

Lemma to_goal_of (g : Goal.t) : to_goal (of_goal g) = Some g.
Proof. destruct g. reflexivity. Qed.

Lemma to_list_of (A : Type) (f : value -> option A) (g : A -> value)
      (l : list A) :
  (forall x, f (g x) = Some x) ->
  to_list f (VArr (map g l)) = Some l.
Proof.
  intros H. unfold to_list. induction l as [|x l IH]; [reflexivity|].
  cbn [map all_some]. now rewrite H, IH.
Qed.

(** A state of records is read back as it is. *)
Lemma to_state_of (st : State) : to_state (of_state st) = Some st.
Proof.
  unfold to_state, of_state.
  cbn [Raw.income Raw.categories Raw.transactions Raw.goals].
  rewrite (to_list_of _ _ _ _ to_category_of),
    (to_list_of _ _ _ _ to_transaction_of), (to_list_of _ _ _ _ to_goal_of).
  now destruct st.
Qed.

(** What the effect never changes. *)
Lemma income_effect_frame (before after : State) :
  income (income_effect before after) = income after
  /\ transactions (income_effect before after) = transactions after
  /\ goals (income_effect before after) = goals after
  /\ map shape (categories (income_effect before after))
     = map shape (categories after).
Proof.
  unfold income_effect. destruct (Object_is _ _); [repeat split|].
  destruct (run_shape Distribute after) as [Hi Hs]. cbn [run] in Hi, Hs.
  rewrite (distribute_setCategories after) at 2 3.
  repeat split; assumption.
Qed.

(** The component after the import of an exported valid state. *)
Lemma importFile_export
      (J : JSON) (L : JSONLaws J) (st cur : State) :
  valid_state st = true ->
  importFile (of_state cur) (exportData (of_state st))
  = Some (of_state (income_effect cur st), None).
Proof.
  intros Hv. unfold importFile.
  rewrite (handler_round_trip J L st (of_state cur) Hv).
  now rewrite !to_state_of.
Qed.
End ComponentFacts.

Import ComponentFacts.




(** X24.  Importing the exported text of a valid state a second time
    gives exactly that state, balances included, whatever was in
    memory before the first import: after the first import the income
    in memory is the income of the file, so the effect does not run
    again. *)
Theorem import_twice_restores
  (J : JSON) (L : JSONLaws J) (st cur : State) :
  valid_state st = true ->
  exists once,
    importFile (of_state cur) (exportData (of_state st)) = Some (once, None)
    /\ importFile once (exportData (of_state st)) = Some (of_state st, None).
Proof.
  intros Hv. exists (of_state (income_effect cur st)).
  split; [apply (importFile_export J L st cur Hv)|].
  rewrite (importFile_export J L st (income_effect cur st) Hv).
  unfold income_effect at 1.
  destruct (income_effect_frame cur st) as [Hi _].
  now rewrite Hi, Object_is_refl.
Qed.

Lemma import_twice_restores_witness :
  exists once,
    importFile (J := TreeJSON) (of_state (defaults "i1" "i2" "i3"))
      (exportData (J := TreeJSON) (of_state Scenario.after_goal))
    = Some (once, None)
    /\ importFile (J := TreeJSON) once
         (exportData (J := TreeJSON) (of_state Scenario.after_goal))
       = Some (of_state Scenario.after_goal, None).
Proof.
  apply (import_twice_restores TreeJSON TreeJSON_laws Scenario.after_goal
           (defaults "i1" "i2" "i3")).
  reflexivity.
Defined.
